(** * zerver/lib/message.py: the message-dict builder and its payload codec

    A shallow embedding of [extract_message_dict], [stringify_message_dict]
    and the [MessageDict] class (its two call-site adapters and
    [build_message_dict]), followed by the properties of the builder.

    Python values that end up in the client-facing dict are modelled by the
    type [value]; a Python [dict] with string keys is a [gmap string value],
    so that dict equality is extensional, as Python's [==] is.  Exceptions
    are explicit: a computation returns [Ok] or [Raise], together with the
    world it leaves behind (the record store and a log of the calls made to
    the stateful collaborators), because a Python exception does not undo
    the side effects that happened before it. *)

From Stdlib Require Import ZArith String List Bool.
From stdpp Require Import base gmap strings list.

Local Open Scope string_scope.
Local Open Scope Z_scope.

Set Warnings "-register-all".

(** ** Python values *)

(** [text_type] and [binary_type]. *)
Abbreviation text := string (only parsing).
Abbreviation bytes := (list Byte.byte) (only parsing).

(** What a value of the output dict can be: the JSON fragment of Python,
    with integers for numbers. *)
Inductive value : Type :=
| VNone
| VBool (b : bool)
| VInt (n : Z)
| VStr (s : text)
| VList (l : list value)
| VDict (d : gmap string value).

(** The exceptions that the modelled code and its collaborators raise. *)
Inductive exc : Type :=
| AssertionError
| UnboundLocalError (name : string)
| TypeError
| ValueError
| AttributeError
| UnicodeDecodeError
| zlib_error
| DoesNotExist
| DatabaseError.

Inductive result (A : Type) : Type :=
| Ok (a : A)
| Raise (e : exc).
Arguments Ok {A} a.
Arguments Raise {A} e.

Definition is_ok {A} (r : result A) : bool :=
  match r with Ok _ => true | Raise _ => false end.

(** Python's [<] on text: lexicographic on the code units. *)
Definition text_lt (a b : text) : bool := String.ltb a b.
(** Python's [>] on text is [<] with the operands swapped. *)
Definition text_gt (a b : text) : bool := String.ltb b a.

(** [datetime.datetime], by its attributes. *)
Record datetime : Type := mk_datetime {
  year : Z; month : Z; day : Z;
  hour : Z; minute : Z; second : Z; microsecond : Z
}.

(** ** The records of zerver.models, as far as message.py reads them *)

Module Realm.
Record t : Type := mk { domain : text }.
End Realm.

Module UserProfile.
Record t : Type := mk {
  id : Z;
  email : text;
  full_name : text;
  short_name : text;
  avatar_source : text;
  is_mirror_dummy : bool;
  realm : Realm.t
}.
End UserProfile.

Module Client.
Record t : Type := mk { name : text }.
End Client.

Module Recipient.
Record t : Type := mk {
  id : Z;
  type : Z;
  type_id : Z
}.
End Recipient.

Module Message.
Record t : Type := mk {
  id : Z;
  content : text;
  subject : text;
  pub_date : datetime;
  last_edit_time : option datetime;
  edit_history : option text;
  rendered_content : option text;
  rendered_content_version : option Z;
  sender : UserProfile.t;
  recipient : Recipient.t;
  sending_client : Client.t
}.

(** [message.rendered_content = rc; message.rendered_content_version = v] *)
Definition set_rendered (m : t) (rc : option text) (v : Z) : t :=
  mk (id m) (content m) (subject m) (pub_date m) (last_edit_time m)
     (edit_history m) rc (Some v) (sender m) (recipient m)
     (sending_client m).
End Message.

(** A row of a [.values()] call: one field per key that
    [build_dict_from_raw_db_row] reads, under the key's name. *)
Module RawRow.
Record t : Type := mk {
  id : Z;
  last_edit_time : option datetime;
  edit_history : option text;
  content : text;
  subject : text;
  pub_date : datetime;
  rendered_content : option text;
  rendered_content_version : option Z;
  sender_id : Z;
  sender__email : text;
  sender__realm__domain : text;
  sender__full_name : text;
  sender__short_name : text;
  sender__avatar_source : text;
  sender__is_mirror_dummy : bool;
  sending_client__name : text;
  recipient_id : Z;
  recipient__type : Z;
  recipient__type_id : Z
}.
End RawRow.

(** One participant descriptor, the dict
    [{'email', 'domain', 'full_name', 'short_name', 'id', 'is_mirror_dummy'}]. *)
Record participant : Type := mk_participant {
  p_email : text;
  p_domain : text;
  p_full_name : text;
  p_short_name : text;
  p_id : Z;
  p_is_mirror_dummy : bool
}.

(** What [get_display_recipient_by_id] returns: the stream's name, or the
    list of participant descriptors. *)
Inductive display_recipient_t : Type :=
| StreamName (name : text)
| Participants (l : list participant).

Definition participant_value (p : participant) : value :=
  VDict (list_to_map
    [("email", VStr (p_email p));
     ("domain", VStr (p_domain p));
     ("full_name", VStr (p_full_name p));
     ("short_name", VStr (p_short_name p));
     ("id", VInt (p_id p));
     ("is_mirror_dummy", VBool (p_is_mirror_dummy p))]).

Definition display_recipient_value (dr : display_recipient_t) : value :=
  match dr with
  | StreamName s => VStr s
  | Participants l => VList (map participant_value l)
  end.

(** The keyword arguments of [build_message_dict] other than
    [apply_markdown] and [message], under their names. *)
Record fields : Type := mk_fields {
  message_id : Z;
  last_edit_time : option datetime;
  edit_history : option text;
  content : text;
  subject : text;
  pub_date : datetime;
  rendered_content : option text;
  rendered_content_version : option Z;
  sender_id : Z;
  sender_email : text;
  sender_realm_domain : text;
  sender_full_name : text;
  sender_short_name : text;
  sender_avatar_source : text;
  sender_is_mirror_dummy : bool;
  sending_client_name : text;
  recipient_id : Z;
  recipient_type : Z;
  recipient_type_id : Z
}.

(** ** The collaborators

    Everything message.py imports and calls.  None of it is defined in
    message.py, so each is a parameter; [Store] is the state of the record
    store behind [Message.objects] and [save_rendered_content]. *)
Record collaborators (Store : Type) : Type := mk_collaborators {
  (** zlib, ujson, str_utils and the text codec *)
  zlib_compress : bytes -> bytes;
  zlib_decompress : bytes -> result bytes;
  force_bytes : text -> bytes;
  decode_utf8 : bytes -> result text;
  ujson_dumps : value -> text;
  ujson_loads : option text -> result value;
  dict_with_str_keys : value -> result (gmap string value);
  (** avatar, avatar_hash, timestamp, bugdown *)
  get_avatar_url : text -> text -> text;
  gravatar_hash : text -> text;
  datetime_to_timestamp : datetime -> Z;
  text_lower : text -> text;
  subject_links : text -> text -> list text;
  bugdown_version : Z;
  (** zerver.models *)
  STREAM : Z;
  PERSONAL : Z;
  HUDDLE : Z;
  get_display_recipient_by_id : Z -> Z -> Z -> display_recipient_t;
  need_to_render_content : option text -> option Z -> Z -> bool;
  objects_get : Store -> Z -> result Message.t;
  render_markdown : Message.t -> text -> text -> option text;
  save_rendered_content : Store -> Message.t -> result Store
}.
Arguments zlib_compress {Store} _ _.
Arguments zlib_decompress {Store} _ _.
Arguments force_bytes {Store} _ _.
Arguments decode_utf8 {Store} _ _.
Arguments ujson_dumps {Store} _ _.
Arguments ujson_loads {Store} _ _.
Arguments dict_with_str_keys {Store} _ _.
Arguments get_avatar_url {Store} _ _ _.
Arguments gravatar_hash {Store} _ _.
Arguments datetime_to_timestamp {Store} _ _.
Arguments text_lower {Store} _ _.
Arguments subject_links {Store} _ _ _.
Arguments bugdown_version {Store} _.
Arguments STREAM {Store} _.
Arguments PERSONAL {Store} _.
Arguments HUDDLE {Store} _.
Arguments get_display_recipient_by_id {Store} _ _ _ _.
Arguments need_to_render_content {Store} _ _ _ _.
Arguments objects_get {Store} _ _ _.
Arguments render_markdown {Store} _ _ _ _.
Arguments save_rendered_content {Store} _ _ _.

(** ** Worlds and computations *)

(** The calls to the stateful collaborators, as they are logged. *)
Inductive call : Type :=
| CallGet (id : Z)
| CallRender (id : Z) (content domain : text)
| CallSave (id : Z) (rendered : option text) (version : option Z).

Record world (Store : Type) : Type := mk_world {
  store : Store;
  calls : list call
}.
Arguments mk_world {Store} _ _.
Arguments store {Store} _.
Arguments calls {Store} _.

Definition logged {Store} (c : call) (w : world Store) : world Store :=
  mk_world (store w) (calls w ++ [c]).

(** A computation runs in a world and returns or raises; the world it
    leaves is returned in both cases. *)
Definition M (Store A : Type) : Type := world Store -> result A * world Store.

Definition ret {Store A} (a : A) : M Store A := fun w => (Ok a, w).

Definition raise {Store A} (e : exc) : M Store A := fun w => (Raise e, w).

Definition bind {Store A B} (c : M Store A) (k : A -> M Store B) : M Store B :=
  fun w =>
    match c w with
    | (Ok a, w') => k a w'
    | (Raise e, w') => (Raise e, w')
    end.

Definition lift {Store A} (r : result A) : M Store A := fun w => (r, w).

Declare Scope py_scope.
Delimit Scope py_scope with py.
Notation "x <- c ;; k" := (bind c (fun x => k))
  (at level 100, c at next level, right associativity) : py_scope.
Notation "c ;;; k" := (bind c (fun _ => k))
  (at level 100, right associativity) : py_scope.

(** ** message.py *)

Section MessagePy.
Context {Store : Type}.
Variable env : collaborators Store.

Local Open Scope py_scope.

(** [Message.objects.select_related().get(id=message_id)] *)
Definition call_objects_get (id : Z) : M Store Message.t :=
  fun w => (objects_get env (store w) id, logged (CallGet id) w).

(** [message.render_markdown(content, domain)] *)
Definition call_render_markdown (message : Message.t)
    (content domain : text) : M Store (option text) :=
  fun w => (Ok (render_markdown env message content domain),
            logged (CallRender (Message.id message) content domain) w).

(** [message.save_rendered_content()] *)
Definition call_save_rendered_content (message : Message.t) : M Store unit :=
  fun w =>
    let c := CallSave (Message.id message) (Message.rendered_content message)
               (Message.rendered_content_version message) in
    match save_rendered_content env (store w) message with
    | Ok s' => (Ok tt, mk_world s' (calls w ++ [c]))
    | Raise e => (Raise e, logged c w)
    end.

(** Lines 24-26. *)
Definition extract_message_dict (message_bytes : bytes)
    : result (gmap string value) :=
  match zlib_decompress env message_bytes with
  | Raise e => Raise e
  | Ok raw =>
      match decode_utf8 env raw with
      | Raise e => Raise e
      | Ok s =>
          match ujson_loads env (Some s) with
          | Raise e => Raise e
          | Ok v => dict_with_str_keys env v
          end
      end
  end.

(** Lines 28-30. *)
Definition stringify_message_dict (message_dict : gmap string value) : bytes :=
  zlib_compress env (force_bytes env (ujson_dumps env (VDict message_dict))).

(** The notice of line 207. *)
Definition unparseable_notice : text :=
  "<p>[Zulip note: Sorry, we could not understand the formatting of your message]</p>".

(** Lines 149-154: the sender's own descriptor. *)
Definition recip (f : fields) : participant :=
  {| p_email := sender_email f;
     p_domain := sender_realm_domain f;
     p_full_name := sender_full_name f;
     p_short_name := sender_short_name f;
     p_id := sender_id f;
     p_is_mirror_dummy := sender_is_mirror_dummy f |}.

(** Lines 141-158: the display type, unbound ([None]) when no branch
    binds it, and the display recipient after the sender was added. *)
Definition resolve_display (f : fields) (display_recipient : display_recipient_t)
    : result (option text * display_recipient_t) :=
  if recipient_type f =? STREAM env then
    Ok (Some "stream", display_recipient)
  else if (recipient_type f =? HUDDLE env) || (recipient_type f =? PERSONAL env) then
    match display_recipient with
    | StreamName _ => Raise AssertionError
    | Participants [first] =>
        let recip := recip f in
        if text_lt (p_email recip) (p_email first) then
          Ok (Some "private", Participants [recip; first])
        else if text_gt (p_email recip) (p_email first) then
          Ok (Some "private", Participants [first; recip])
        else Ok (Some "private", display_recipient)
    | Participants _ => Ok (Some "private", display_recipient)
    end
  else Ok (None, display_recipient).

(** Lines 182-212: the content and its type. *)
Definition resolve_content (apply_markdown : bool) (message : option Message.t)
    (f : fields) (obj : gmap string value) : M Store (gmap string value) :=
  if apply_markdown then
    rendered_content <-
      (if need_to_render_content env (rendered_content f)
            (rendered_content_version f) (bugdown_version env) then
         message <- match message with
                    | None => call_objects_get (message_id f)
                    | Some m => ret m
                    end ;;
         rendered_content <-
           call_render_markdown message (content f) (sender_realm_domain f) ;;
         let message :=
           Message.set_rendered message rendered_content (bugdown_version env) in
         call_save_rendered_content message ;;;
         ret rendered_content
       else ret (rendered_content f)) ;;
    let obj :=
      match rendered_content with
      | Some rc => <["content" := VStr rc]> obj
      | None => <["content" := VStr unparseable_notice]> obj
      end in
    ret (<["content_type" := VStr "text/html"]> obj)
  else
    ret (<["content_type" := VStr "text/x-markdown"]>
           (<["content" := VStr (content f)]> obj)).

(** Lines 160-176: the keys every message dict has. *)
Definition initial_obj (f : fields) (avatar_url display_type : text)
    (display_recipient : display_recipient_t) : gmap string value :=
  let obj : gmap string value :=
    list_to_map
      [("id", VInt (message_id f));
       ("sender_email", VStr (sender_email f));
       ("sender_full_name", VStr (sender_full_name f));
       ("sender_short_name", VStr (sender_short_name f));
       ("sender_domain", VStr (sender_realm_domain f));
       ("sender_id", VInt (sender_id f));
       ("type", VStr display_type);
       ("display_recipient", display_recipient_value display_recipient);
       ("recipient_id", VInt (recipient_id f));
       ("subject", VStr (subject f));
       ("timestamp", VInt (datetime_to_timestamp env (pub_date f)));
       ("gravatar_hash", VStr (gravatar_hash env (sender_email f)));
       ("avatar_url", VStr avatar_url);
       ("client", VStr (sending_client_name f))] in
  <["subject_links" :=
      VList (map VStr (subject_links env (text_lower env (sender_realm_domain f))
                         (subject f)))]> obj.

(** Lines 178-180: the edit metadata. *)
Definition add_edit_metadata (f : fields) (obj : gmap string value)
    : result (gmap string value) :=
  match last_edit_time f with
  | Some t =>
      let obj :=
        <["last_edit_timestamp" := VInt (datetime_to_timestamp env t)]> obj in
      match ujson_loads env (edit_history f) with
      | Ok history => Ok (<["edit_history" := history]> obj)
      | Raise e => Raise e
      end
  | None => Ok obj
  end.

(** Lines 107-214. *)
Definition build_message_dict (apply_markdown : bool)
    (message : option Message.t) (f : fields) : M Store (gmap string value) :=
  let avatar_url := get_avatar_url env (sender_avatar_source f) (sender_email f) in
  let display_recipient :=
    get_display_recipient_by_id env (recipient_id f) (recipient_type f)
      (recipient_type_id f) in
  resolved <- lift (resolve_display f display_recipient) ;;
  let '(display_type, display_recipient) := resolved in
  display_type <- match display_type with
                  | Some t => ret t
                  | None => raise (UnboundLocalError "display_type")
                  end ;;
  let obj := initial_obj f avatar_url display_type display_recipient in
  obj <- lift (add_edit_metadata f obj) ;;
  resolve_content apply_markdown message f obj.

(** Lines 49-74. *)
Definition to_dict_uncached_helper (message : Message.t) (apply_markdown : bool)
    : M Store (gmap string value) :=
  build_message_dict apply_markdown (Some message)
    {| message_id := Message.id message;
       last_edit_time := Message.last_edit_time message;
       edit_history := Message.edit_history message;
       content := Message.content message;
       subject := Message.subject message;
       pub_date := Message.pub_date message;
       rendered_content := Message.rendered_content message;
       rendered_content_version := Message.rendered_content_version message;
       sender_id := UserProfile.id (Message.sender message);
       sender_email := UserProfile.email (Message.sender message);
       sender_realm_domain :=
         Realm.domain (UserProfile.realm (Message.sender message));
       sender_full_name := UserProfile.full_name (Message.sender message);
       sender_short_name := UserProfile.short_name (Message.sender message);
       sender_avatar_source := UserProfile.avatar_source (Message.sender message);
       sender_is_mirror_dummy :=
         UserProfile.is_mirror_dummy (Message.sender message);
       sending_client_name := Client.name (Message.sending_client message);
       recipient_id := Recipient.id (Message.recipient message);
       recipient_type := Recipient.type (Message.recipient message);
       recipient_type_id := Recipient.type_id (Message.recipient message) |}.

(** Lines 76-105. *)
Definition build_dict_from_raw_db_row (row : RawRow.t) (apply_markdown : bool)
    : M Store (gmap string value) :=
  build_message_dict apply_markdown None
    {| message_id := RawRow.id row;
       last_edit_time := RawRow.last_edit_time row;
       edit_history := RawRow.edit_history row;
       content := RawRow.content row;
       subject := RawRow.subject row;
       pub_date := RawRow.pub_date row;
       rendered_content := RawRow.rendered_content row;
       rendered_content_version := RawRow.rendered_content_version row;
       sender_id := RawRow.sender_id row;
       sender_email := RawRow.sender__email row;
       sender_realm_domain := RawRow.sender__realm__domain row;
       sender_full_name := RawRow.sender__full_name row;
       sender_short_name := RawRow.sender__short_name row;
       sender_avatar_source := RawRow.sender__avatar_source row;
       sender_is_mirror_dummy := RawRow.sender__is_mirror_dummy row;
       sending_client_name := RawRow.sending_client__name row;
       recipient_id := RawRow.recipient_id row;
       recipient_type := RawRow.recipient__type row;
       recipient_type_id := RawRow.recipient__type_id row |}.

(** Lines 43-47. *)
Definition to_dict_uncached (message : Message.t) (apply_markdown : bool)
    : M Store bytes :=
  dct <- to_dict_uncached_helper message apply_markdown ;;
  ret (stringify_message_dict dct).

End MessagePy.

(** ** The vocabulary of the statements *)

(** The flat projection of a message record: the row that a [.values()]
    call on the record's fields and joins gives. *)
Definition values (m : Message.t) : RawRow.t :=
  {| RawRow.id := Message.id m;
     RawRow.last_edit_time := Message.last_edit_time m;
     RawRow.edit_history := Message.edit_history m;
     RawRow.content := Message.content m;
     RawRow.subject := Message.subject m;
     RawRow.pub_date := Message.pub_date m;
     RawRow.rendered_content := Message.rendered_content m;
     RawRow.rendered_content_version := Message.rendered_content_version m;
     RawRow.sender_id := UserProfile.id (Message.sender m);
     RawRow.sender__email := UserProfile.email (Message.sender m);
     RawRow.sender__realm__domain :=
       Realm.domain (UserProfile.realm (Message.sender m));
     RawRow.sender__full_name := UserProfile.full_name (Message.sender m);
     RawRow.sender__short_name := UserProfile.short_name (Message.sender m);
     RawRow.sender__avatar_source := UserProfile.avatar_source (Message.sender m);
     RawRow.sender__is_mirror_dummy := UserProfile.is_mirror_dummy (Message.sender m);
     RawRow.sending_client__name := Client.name (Message.sending_client m);
     RawRow.recipient_id := Recipient.id (Message.recipient m);
     RawRow.recipient__type := Recipient.type (Message.recipient m);
     RawRow.recipient__type_id := Recipient.type_id (Message.recipient m) |}.

Section Vocabulary.
Context {Store : Type}.
Variable env : collaborators Store.

(** The recipient as the resolver gives it for the fields. *)
Definition resolved_recipient (f : fields) : display_recipient_t :=
  get_display_recipient_by_id env (recipient_id f) (recipient_type f)
    (recipient_type_id f).

Definition avatar_of (f : fields) : text :=
  get_avatar_url env (sender_avatar_source f) (sender_email f).

(** The recipient type is one that the builder knows, and a private
    recipient resolves to a list. *)
Definition recipient_ok (f : fields) : Prop :=
  recipient_type f = STREAM env \/
  ((recipient_type f = HUDDLE env \/ recipient_type f = PERSONAL env) /\
   exists l, resolved_recipient f = Participants l).

(** An edited message has a history that ujson parses. *)
Definition edit_history_ok (f : fields) : Prop :=
  last_edit_time f = None \/
  exists history, ujson_loads env (edit_history f) = Ok history.

(** The message that is rendered: the one passed in, or the one
    fetched by id. *)
Definition message_to_render (message : option Message.t) (f : fields)
    (w : world Store) : result Message.t :=
  match message with
  | Some m => Ok m
  | None => objects_get env (store w) (message_id f)
  end.

(** The world after the fetch, if there was one. *)
Definition after_get (message : option Message.t) (f : fields)
    (w : world Store) : world Store :=
  match message with
  | Some _ => w
  | None => logged (CallGet (message_id f)) w
  end.

End Vocabulary.

(** ** A concrete instance of the collaborators

    A small record store and stand-ins for the libraries, on which the
    builder can be run. *)
Module Fixture.

Definition Store : Type := gmap Z Message.t.

Definition header : Byte.byte := Byte.x78.

Definition compress (b : bytes) : bytes := header :: b.

Definition decompress (b : bytes) : result bytes :=
  match b with
  | Byte.x78 :: rest => Ok rest
  | _ => Raise zlib_error
  end.

(** A printer and a parser for the few values the examples need: the
    empty dict, the empty list, and the dict with the one key id. *)
Definition dumps (v : value) : text :=
  match v with
  | VDict d =>
      if Z.of_nat (size d) =? 0 then "{}"
      else match d !! "id" with
           | Some (VInt 7) => if Z.of_nat (size d) =? 1 then "{id: 7}" else "{...}"
           | _ => "{...}"
           end
  | VList [] => "[]"
  | _ => "?"
  end.

Definition loads (s : option text) : result value :=
  match s with
  | None => Raise TypeError
  | Some s =>
      if String.eqb s "{}" then Ok (VDict ∅)
      else if String.eqb s "[]" then Ok (VList [])
      else if String.eqb s "{id: 7}" then Ok (VDict {[ "id" := VInt 7 ]})
      else Raise ValueError
  end.

Definition str_keys (v : value) : result (gmap string value) :=
  match v with
  | VDict d => Ok d
  | _ => Raise AttributeError
  end.

Definition timestamp (t : datetime) : Z :=
  ((year t * 372 + month t * 31 + day t) * 24 + hour t) * 3600
  + minute t * 60 + second t.

Definition alice : participant :=
  mk_participant "a@x.com" "x.com" "Alice" "alice" 1 false.

Definition bob : participant :=
  mk_participant "b@x.com" "x.com" "Bob" "bob" 2 false.

(** Recipient 10 is a stream, 1 the personal recipient of alice, 2 a group. *)
Definition display_recipient_of (recipient_id type type_id : Z)
    : display_recipient_t :=
  if recipient_id =? 10 then StreamName "general"
  else if recipient_id =? 1 then Participants [alice]
  else if recipient_id =? 2 then Participants [alice; bob]
  else Participants [].

Definition need_to_render (rendered : option text) (version : option Z)
    (current : Z) : bool :=
  match rendered, version with
  | Some _, Some v => v <? current
  | _, _ => true
  end.

Definition get (s : Store) (id : Z) : result Message.t :=
  match s !! id with
  | Some m => Ok m
  | None => Raise DoesNotExist
  end.

Definition render (m : Message.t) (content domain : text) : option text :=
  if String.eqb content "" then None else Some ("<p>" +:+ content +:+ "</p>").

(** An update of the two rendered fields of the stored row; it fails
    when the row is not there. *)
Definition save (s : Store) (m : Message.t) : result Store :=
  match s !! Message.id m with
  | Some old =>
      Ok (<[Message.id m :=
              Message.mk (Message.id old) (Message.content old)
                (Message.subject old) (Message.pub_date old)
                (Message.last_edit_time old) (Message.edit_history old)
                (Message.rendered_content m)
                (Message.rendered_content_version m)
                (Message.sender old) (Message.recipient old)
                (Message.sending_client old)]> s)
  | None => Raise DatabaseError
  end.

Definition env : collaborators Store :=
  {| zlib_compress := compress;
     zlib_decompress := decompress;
     force_bytes := String.list_byte_of_string;
     decode_utf8 := fun b => Ok (String.string_of_list_byte b);
     ujson_dumps := dumps;
     ujson_loads := loads;
     dict_with_str_keys := str_keys;
     get_avatar_url := fun source email => "/avatar/" +:+ email;
     gravatar_hash := fun email => "hash-" +:+ email;
     datetime_to_timestamp := timestamp;
     text_lower := fun s => s;
     subject_links := fun domain subject => [];
     bugdown_version := 2;
     STREAM := 2;
     PERSONAL := 1;
     HUDDLE := 3;
     get_display_recipient_by_id := display_recipient_of;
     need_to_render_content := need_to_render;
     objects_get := get;
     render_markdown := render;
     save_rendered_content := save |}.

Definition epoch : datetime := mk_datetime 0 0 0 0 0 0 0.

(** A message of bob's with the given type and recipient; never
    rendered, never edited. *)
Definition message (type recipient_id : Z) (content : text) : Message.t :=
  Message.mk 7 content "lunch" epoch None None None None
    (UserProfile.mk 2 "b@x.com" "Bob" "bob" "G" false (Realm.mk "x.com"))
    (Recipient.mk recipient_id type 0)
    (Client.mk "website").

(** The projection of a message onto the keyword arguments. *)
Definition fields_of (m : Message.t) : fields :=
  {| message_id := Message.id m;
     last_edit_time := Message.last_edit_time m;
     edit_history := Message.edit_history m;
     content := Message.content m;
     subject := Message.subject m;
     pub_date := Message.pub_date m;
     rendered_content := Message.rendered_content m;
     rendered_content_version := Message.rendered_content_version m;
     sender_id := UserProfile.id (Message.sender m);
     sender_email := UserProfile.email (Message.sender m);
     sender_realm_domain := Realm.domain (UserProfile.realm (Message.sender m));
     sender_full_name := UserProfile.full_name (Message.sender m);
     sender_short_name := UserProfile.short_name (Message.sender m);
     sender_avatar_source := UserProfile.avatar_source (Message.sender m);
     sender_is_mirror_dummy := UserProfile.is_mirror_dummy (Message.sender m);
     sending_client_name := Client.name (Message.sending_client m);
     recipient_id := Recipient.id (Message.recipient m);
     recipient_type := Recipient.type (Message.recipient m);
     recipient_type_id := Recipient.type_id (Message.recipient m) |}.

Definition empty_world : world Store := mk_world ∅ [].

Definition world_with (m : Message.t) : world Store :=
  mk_world {[ Message.id m := m ]} [].

End Fixture.

(** A message of alice's to herself. *)
Definition self_message : Message.t :=
  Message.mk 8 "note to self" "todo" Fixture.epoch None None None None
    (UserProfile.mk 1 "a@x.com" "Alice" "alice" "G" false (Realm.mk "x.com"))
    (Recipient.mk 1 1 0)
    (Client.mk "website").

(** A message edited at the epoch whose history was never stored. *)
Definition edited_message : Message.t :=
  Message.mk 9 "hello" "lunch" Fixture.epoch (Some Fixture.epoch) None None None
    (UserProfile.mk 2 "b@x.com" "Bob" "bob" "G" false (Realm.mk "x.com"))
    (Recipient.mk 10 2 0)
    (Client.mk "website").

(** A stream message edited at the epoch, with an empty history. *)
Definition edited_with_history : Message.t :=
  Message.mk 11 "hello" "lunch" Fixture.epoch (Some Fixture.epoch) (Some "[]")
    None None
    (UserProfile.mk 2 "b@x.com" "Bob" "bob" "G" false (Realm.mk "x.com"))
    (Recipient.mk 10 2 0)
    (Client.mk "website").

(** A stream message that was rendered by the current bugdown. *)
Definition rendered_message : Message.t :=
  Message.mk 12 "hi" "lunch" Fixture.epoch None None (Some "<p>hi</p>") (Some 2)
    (UserProfile.mk 2 "b@x.com" "Bob" "bob" "G" false (Realm.mk "x.com"))
    (Recipient.mk 10 2 0)
    (Client.mk "website").


(** ** The management command's re-render (lines 216-230) *)

Section ManagementCommand.
Context {Store : Type}.
Variable env : collaborators Store.

(** [message.render_markdown(content)], with the domain argument left to
    the default that zerver.models gives it. *)
Variable render_markdown_default : Message.t -> text -> option text.

Local Open Scope py_scope.

(** The call of [message.render_markdown(message.content)]; the log entry
    has the empty text where the domain was left out. *)
Definition call_render_markdown_default (message : Message.t) (content : text)
    : M Store (option text) :=
  fun w => (Ok (render_markdown_default message content),
            logged (CallRender (Message.id message) content "") w).

(** Lines 216-230. *)
Definition re_render_content_for_management_command (message : Message.t)
    : M Store unit :=
  (if need_to_render_content env (Message.rendered_content message)
        (Message.rendered_content_version message) (bugdown_version env)
   then ret tt
   else raise AssertionError) ;;;
  rendered_content <-
    call_render_markdown_default message (Message.content message) ;;
  let message :=
    Message.set_rendered message rendered_content (bugdown_version env) in
  call_save_rendered_content env message.

End ManagementCommand.

(** ** More vocabulary *)

(** The keys of lines 160-176, of lines 178-180 and of lines 182-212. *)
Definition fixed_keys : gset string :=
  list_to_set
    ["id"; "sender_email"; "sender_full_name"; "sender_short_name";
     "sender_domain"; "sender_id"; "type"; "display_recipient";
     "recipient_id"; "subject"; "timestamp"; "gravatar_hash"; "avatar_url";
     "client"; "subject_links"].

Definition edit_keys : gset string :=
  list_to_set ["last_edit_timestamp"; "edit_history"].

Definition content_keys : gset string :=
  list_to_set ["content"; "content_type"].

(** The fields with another stored edit history. *)
Definition with_edit_history (f : fields) (history : option text) : fields :=
  {| message_id := message_id f;
     last_edit_time := last_edit_time f;
     edit_history := history;
     content := content f;
     subject := subject f;
     pub_date := pub_date f;
     rendered_content := rendered_content f;
     rendered_content_version := rendered_content_version f;
     sender_id := sender_id f;
     sender_email := sender_email f;
     sender_realm_domain := sender_realm_domain f;
     sender_full_name := sender_full_name f;
     sender_short_name := sender_short_name f;
     sender_avatar_source := sender_avatar_source f;
     sender_is_mirror_dummy := sender_is_mirror_dummy f;
     sending_client_name := sending_client_name f;
     recipient_id := recipient_id f;
     recipient_type := recipient_type f;
     recipient_type_id := recipient_type_id f |}.

(** The log entry of the fetch, when the builder has to fetch. *)
Definition fetch_calls (message : option Message.t) (f : fields) : list call :=
  match message with
  | Some _ => []
  | None => [CallGet (message_id f)]
  end.

Definition is_get (c : call) : bool :=
  match c with CallGet _ => true | _ => false end.

(** The fixture with a directory in which recipient 1 is alice's personal
    recipient and recipient 4 bob's. *)
Definition pair_env : collaborators Fixture.Store :=
  {| zlib_compress := Fixture.compress;
     zlib_decompress := Fixture.decompress;
     force_bytes := String.list_byte_of_string;
     decode_utf8 := fun b => Ok (String.string_of_list_byte b);
     ujson_dumps := Fixture.dumps;
     ujson_loads := Fixture.loads;
     dict_with_str_keys := Fixture.str_keys;
     get_avatar_url := fun source email => "/avatar/" +:+ email;
     gravatar_hash := fun email => "hash-" +:+ email;
     datetime_to_timestamp := Fixture.timestamp;
     text_lower := fun s => s;
     subject_links := fun domain subject => [];
     bugdown_version := 2;
     STREAM := 2;
     PERSONAL := 1;
     HUDDLE := 3;
     get_display_recipient_by_id :=
       fun recipient_id type type_id =>
         if recipient_id =? 1 then Participants [Fixture.alice]
         else if recipient_id =? 4 then Participants [Fixture.bob]
         else Participants [];
     need_to_render_content := Fixture.need_to_render;
     objects_get := Fixture.get;
     render_markdown := Fixture.render;
     save_rendered_content := Fixture.save |}.

(** A personal message of alice's to bob. *)
Definition alice_to_bob : Message.t :=
  Message.mk 13 "hello bob" "lunch" Fixture.epoch None None None None
    (UserProfile.mk 1 "a@x.com" "Alice" "alice" "G" false (Realm.mk "x.com"))
    (Recipient.mk 4 1 0)
    (Client.mk "website").

(** A group message of bob's to the group of alice and bob. *)
Definition group_message : Message.t := Fixture.message 3 2 "hi all".

(** The fixture's renderer with the domain left out. *)
Definition render_default (m : Message.t) (content : text) : option text :=
  Fixture.render m content "".

(** ** Results *)

Lemma Ok_inj {A} (a b : A) : Ok a = Ok b -> a = b.
Proof. intros H. injection H as H. exact H. Qed.

(** ** Text order *)

Lemma text_lt_irrefl (a : text) : text_lt a a = false.
Proof.
  unfold text_lt, String.ltb.
  pose proof (String.compare_antisym a a) as H.
  destruct (String.compare a a) eqn:E; simpl in H; congruence.
Qed.

Lemma text_lt_gt (a b : text) : text_lt a b = text_gt b a.
Proof. reflexivity. Qed.

Lemma text_lt_asym (a b : text) : text_lt a b = true -> text_lt b a = false.
Proof.
  unfold text_lt, String.ltb. rewrite (String.compare_antisym b a).
  destruct (String.compare a b); simpl; congruence.
Qed.

Lemma text_lt_total (a b : text) :
  a <> b -> text_lt a b = false -> text_gt a b = true.
Proof.
  unfold text_gt, text_lt, String.ltb. intros Hne.
  rewrite (String.compare_antisym b a).
  destruct (String.compare a b) eqn:E; simpl; try congruence.
  apply String.compare_eq_iff in E. congruence.
Qed.

(** ** How the builder runs *)

Section Run.
Context {Store : Type}.
Variable env : collaborators Store.

(** The builder is its three stages in sequence; the first two do
    not touch the world. *)
Lemma build_message_dict_stages (apply_markdown : bool)
    (message : option Message.t) (f : fields) (w : world Store) :
  build_message_dict env apply_markdown message f w =
  match resolve_display env f (resolved_recipient env f) with
  | Raise e => (Raise e, w)
  | Ok (None, _) => (Raise (UnboundLocalError "display_type"), w)
  | Ok (Some display_type, display_recipient) =>
      match add_edit_metadata env f
              (initial_obj env f (avatar_of env f) display_type display_recipient) with
      | Raise e => (Raise e, w)
      | Ok obj => resolve_content env apply_markdown message f obj w
      end
  end.
Proof.
  unfold build_message_dict, bind, lift, ret, raise, resolved_recipient, avatar_of.
  destruct (resolve_display env f _) as [[[dt|] dr]|e]; reflexivity.
Qed.

Lemma resolve_display_ok (f : fields) :
  recipient_ok env f ->
  exists display_type display_recipient,
    resolve_display env f (resolved_recipient env f)
    = Ok (Some display_type, display_recipient).
Proof.
  unfold resolve_display. intros [Hs | [Hp [l Hl]]].
  - rewrite Hs, Z.eqb_refl. eauto.
  - destruct (recipient_type f =? STREAM env); [eauto|].
    assert ((recipient_type f =? HUDDLE env) || (recipient_type f =? PERSONAL env)
            = true) as ->.
    { destruct Hp as [-> | ->]; rewrite Z.eqb_refl; [reflexivity|].
      apply orb_true_r. }
    rewrite Hl. destruct l as [|first [|second rest]]; eauto.
    destruct (text_lt _ _); [eauto|]. destruct (text_gt _ _); eauto.
Qed.

Lemma add_edit_metadata_ok (f : fields) (obj : gmap string value) :
  edit_history_ok env f -> exists obj', add_edit_metadata env f obj = Ok obj'.
Proof.
  unfold add_edit_metadata. intros [Hn | [h Hh]].
  - rewrite Hn. eauto.
  - destruct (last_edit_time f); [rewrite Hh|]; eauto.
Qed.

(** With markdown off the content stage is a pure insertion. *)
Lemma resolve_content_off (message : option Message.t) (f : fields)
    (obj : gmap string value) (w : world Store) :
  resolve_content env false message f obj w =
  (Ok (<["content_type" := VStr "text/x-markdown"]>
         (<["content" := VStr (content f)]> obj)), w).
Proof. reflexivity. Qed.

(** With nothing to render the stored rendered content is used. *)
Lemma resolve_content_fresh (message : option Message.t) (f : fields)
    (obj : gmap string value) (w : world Store) :
  need_to_render_content env (rendered_content f) (rendered_content_version f)
    (bugdown_version env) = false ->
  resolve_content env true message f obj w =
  (Ok (<["content_type" := VStr "text/html"]>
         (<["content" :=
              VStr (match rendered_content f with
                    | Some rc => rc
                    | None => unparseable_notice
                    end)]> obj)), w).
Proof.
  intros Hn. unfold resolve_content, bind, ret. rewrite Hn.
  destruct (rendered_content f); reflexivity.
Qed.

(** With stale rendered content: fetch if needed, render, save. *)
Lemma resolve_content_stale (message : option Message.t) (f : fields)
    (obj : gmap string value) (w : world Store) :
  need_to_render_content env (rendered_content f) (rendered_content_version f)
    (bugdown_version env) = true ->
  resolve_content env true message f obj w =
  match message_to_render env message f w with
  | Raise e => (Raise e, after_get message f w)
  | Ok m =>
      let rc := render_markdown env m (content f) (sender_realm_domain f) in
      let w1 :=
        logged (CallRender (Message.id m) (content f) (sender_realm_domain f))
          (after_get message f w) in
      let saved := CallSave (Message.id m) rc (Some (bugdown_version env)) in
      match save_rendered_content env (store w)
              (Message.set_rendered m rc (bugdown_version env)) with
      | Raise e => (Raise e, logged saved w1)
      | Ok s' =>
          (Ok (<["content_type" := VStr "text/html"]>
                 (<["content" :=
                      VStr (match rc with
                            | Some html => html
                            | None => unparseable_notice
                            end)]> obj)),
           mk_world s' (calls w1 ++ [saved]))
      end
  end.
Proof.
  intros Hn. unfold resolve_content, bind, ret. rewrite Hn.
  unfold message_to_render, after_get.
  destruct message as [m|]; simpl.
  - unfold call_save_rendered_content; simpl.
    destruct (save_rendered_content env (store w) _); [|reflexivity].
    destruct (render_markdown env m _ _); reflexivity.
  - unfold call_objects_get; simpl.
    destruct (objects_get env (store w) (message_id f)) as [m|e]; [|reflexivity].
    unfold call_save_rendered_content; simpl.
    destruct (save_rendered_content env (store w) _); [|reflexivity].
    destruct (render_markdown env m _ _); reflexivity.
Qed.

End Run.

(** ** What the stages leave in the dict *)

Section Keys.
Context {Store : Type}.
Variable env : collaborators Store.

Lemma initial_obj_type (f : fields) (a dt : text) (dr : display_recipient_t) :
  initial_obj env f a dt dr !! "type" = Some (VStr dt).
Proof. reflexivity. Qed.

Lemma initial_obj_display_recipient (f : fields) (a dt : text)
    (dr : display_recipient_t) :
  initial_obj env f a dt dr !! "display_recipient"
  = Some (display_recipient_value dr).
Proof. reflexivity. Qed.

Lemma initial_obj_not_edited (f : fields) (a dt : text) (dr : display_recipient_t) :
  initial_obj env f a dt dr !! "last_edit_timestamp" = None /\
  initial_obj env f a dt dr !! "edit_history" = None.
Proof. split; reflexivity. Qed.

(** The edit stage writes its two keys and no other. *)
Lemma add_edit_metadata_other (f : fields) (obj obj' : gmap string value)
    (k : string) :
  add_edit_metadata env f obj = Ok obj' ->
  k <> "last_edit_timestamp" -> k <> "edit_history" ->
  obj' !! k = obj !! k.
Proof.
  unfold add_edit_metadata. intros H H1 H2.
  destruct (last_edit_time f).
  - destruct (ujson_loads env (edit_history f)); [|discriminate].
    injection H as <-. rewrite !lookup_insert_ne by congruence. reflexivity.
  - injection H as <-. reflexivity.
Qed.

(** The content stage writes its two keys on top of what it is given. *)
Lemma resolve_content_shape (apply_markdown : bool) (message : option Message.t)
    (f : fields) (obj d : gmap string value) (w w' : world Store) :
  resolve_content env apply_markdown message f obj w = (Ok d, w') ->
  exists c ct : text,
    d = <["content_type" := VStr ct]> (<["content" := VStr c]> obj).
Proof.
  destruct apply_markdown.
  - destruct (need_to_render_content env (rendered_content f)
                (rendered_content_version f) (bugdown_version env)) eqn:Hn.
    + rewrite resolve_content_stale by exact Hn.
      destruct (message_to_render env message f w); [|discriminate].
      cbv zeta.
      destruct (save_rendered_content env (store w) _); [|discriminate].
      intros H. injection H as <- _. eauto.
    + rewrite resolve_content_fresh by exact Hn.
      intros H. injection H as <- _. eauto.
  - rewrite resolve_content_off. intros H. injection H as <- _. eauto.
Qed.

Lemma resolve_content_other (apply_markdown : bool) (message : option Message.t)
    (f : fields) (obj d : gmap string value) (w w' : world Store) (k : string) :
  resolve_content env apply_markdown message f obj w = (Ok d, w') ->
  k <> "content" -> k <> "content_type" ->
  d !! k = obj !! k.
Proof.
  intros H H1 H2. apply resolve_content_shape in H as (c & ct & ->).
  rewrite !lookup_insert_ne by congruence. reflexivity.
Qed.

(** A dict that the builder returns went through the three stages. *)
Lemma build_message_dict_inv (apply_markdown : bool) (message : option Message.t)
    (f : fields) (w w' : world Store) (d : gmap string value) :
  build_message_dict env apply_markdown message f w = (Ok d, w') ->
  exists display_type display_recipient obj,
    resolve_display env f (resolved_recipient env f)
    = Ok (Some display_type, display_recipient) /\
    add_edit_metadata env f
      (initial_obj env f (avatar_of env f) display_type display_recipient)
    = Ok obj /\
    resolve_content env apply_markdown message f obj w = (Ok d, w').
Proof.
  rewrite build_message_dict_stages.
  destruct (resolve_display env f _) as [[[dt|] dr]|e]; try discriminate.
  destruct (add_edit_metadata env f _) as [obj|e] eqn:He; try discriminate.
  intros H. exists dt, dr, obj. auto.
Qed.

End Keys.

(** ** The display recipient of a private message *)

Section DisplayRecipient.
Context {Store : Type}.
Variable env : collaborators Store.

(** For a private recipient that resolves to one participant other than
    the sender, the display stage returns the two in email order. *)
Lemma resolve_display_one (f : fields) (first : participant) :
  recipient_type f <> STREAM env ->
  recipient_type f = HUDDLE env \/ recipient_type f = PERSONAL env ->
  sender_email f <> p_email first ->
  exists lo hi,
    resolve_display env f (Participants [first])
    = Ok (Some "private", Participants [lo; hi]) /\
    text_lt (p_email lo) (p_email hi) = true /\
    (if text_lt (sender_email f) (p_email first)
     then lo = recip f /\ hi = first
     else lo = first /\ hi = recip f).
Proof.
  intros Hs Hp Hne. unfold resolve_display.
  destruct (Z.eqb_spec (recipient_type f) (STREAM env)) as [E|_]; [contradiction|].
  assert ((recipient_type f =? HUDDLE env) || (recipient_type f =? PERSONAL env)
          = true) as ->.
  { destruct Hp as [-> | ->]; rewrite Z.eqb_refl; [reflexivity|apply orb_true_r]. }
  cbv zeta. change (p_email (recip f)) with (sender_email f).
  destruct (text_lt (sender_email f) (p_email first)) eqn:Hlt.
  - exists (recip f), first. auto.
  - rewrite (text_lt_total _ _ Hne Hlt).
    exists first, (recip f). repeat split; auto.
    exact (text_lt_total _ _ Hne Hlt).
Qed.

(** A message to oneself: the sender's email is the participant's, no
    comparison is strict, and the list stays as it was resolved. *)
Lemma resolve_display_self (f : fields) (first : participant) :
  recipient_type f <> STREAM env ->
  recipient_type f = HUDDLE env \/ recipient_type f = PERSONAL env ->
  sender_email f = p_email first ->
  resolve_display env f (Participants [first])
  = Ok (Some "private", Participants [first]).
Proof.
  intros Hs Hp Heq. unfold resolve_display.
  destruct (Z.eqb_spec (recipient_type f) (STREAM env)) as [E|_]; [contradiction|].
  assert ((recipient_type f =? HUDDLE env) || (recipient_type f =? PERSONAL env)
          = true) as ->.
  { destruct Hp as [-> | ->]; rewrite Z.eqb_refl; [reflexivity|apply orb_true_r]. }
  cbv zeta. change (p_email (recip f)) with (sender_email f).
  pose proof (text_lt_irrefl (p_email first)) as Hirr.
  unfold text_gt, text_lt in *. rewrite Heq, !Hirr. reflexivity.
Qed.

(** C1, as amended: for every message whose recipient type is PERSONAL or
    HUDDLE and whose display recipient resolves to exactly one participant
    whose email differs from the sender's, the dict that build_message_dict
    returns has type private and a display_recipient of length 2: the
    sender's own descriptor and the participant, in ascending order of
    email (the sender first exactly when the sender's email is the
    smaller one). *)
Theorem sender_added_in_email_order (apply_markdown : bool)
    (message : option Message.t) (f : fields) (first : participant)
    (w w' : world Store) (d : gmap string value) :
  recipient_type f <> STREAM env ->
  recipient_type f = HUDDLE env \/ recipient_type f = PERSONAL env ->
  resolved_recipient env f = Participants [first] ->
  sender_email f <> p_email first ->
  build_message_dict env apply_markdown message f w = (Ok d, w') ->
  exists lo hi,
    d !! "display_recipient"
    = Some (VList [participant_value lo; participant_value hi]) /\
    d !! "type" = Some (VStr "private") /\
    text_lt (p_email lo) (p_email hi) = true /\
    (if text_lt (sender_email f) (p_email first)
     then lo = recip f /\ hi = first
     else lo = first /\ hi = recip f).
Proof.
  intros Hs Hp Hr Hne Hb.
  destruct (resolve_display_one f first Hs Hp Hne) as (lo & hi & Hd & Hlt & Hwho).
  apply build_message_dict_inv in Hb as (dt & dr & obj & Hd' & He & Hc).
  rewrite Hr, Hd in Hd'. injection Hd' as <- <-.
  exists lo, hi. repeat split; auto.
  - rewrite (resolve_content_other env _ _ _ _ _ _ _ _ Hc) by discriminate.
    rewrite (add_edit_metadata_other env _ _ _ _ He) by discriminate.
    apply initial_obj_display_recipient.
  - rewrite (resolve_content_other env _ _ _ _ _ _ _ _ Hc) by discriminate.
    rewrite (add_edit_metadata_other env _ _ _ _ He) by discriminate.
    apply initial_obj_type.
Qed.

End DisplayRecipient.

(** bob (b@x.com) writes to alice (a@x.com): the dict lists alice, then
    bob. *)
Lemma sender_added_example :
  exists d w',
    build_message_dict Fixture.env false None
      (Fixture.fields_of (Fixture.message 1 1 "hi")) Fixture.empty_world
    = (Ok d, w') /\
    d !! "display_recipient"
    = Some (VList [participant_value Fixture.alice;
                   participant_value
                     (recip (Fixture.fields_of (Fixture.message 1 1 "hi")))]) /\
    p_email Fixture.alice = "a@x.com" /\
    p_email (recip (Fixture.fields_of (Fixture.message 1 1 "hi"))) = "b@x.com".
Proof.
  edestruct (sender_added_in_email_order Fixture.env false None
               (Fixture.fields_of (Fixture.message 1 1 "hi")) Fixture.alice
               Fixture.empty_world)
    as (lo & hi & Hd & _ & _ & Hwho);
    [discriminate | right; reflexivity | reflexivity | discriminate
    | reflexivity | ].
  simpl in Hwho. destruct Hwho as [-> ->].
  eexists _, _. split; [reflexivity|].
  split; [exact Hd|split; reflexivity].
Defined.

(** C1 as stated fails for a self-message: the recipient type is PERSONAL,
    the display recipient resolves to exactly one participant, and the dict
    still lists that one participant only, because the sender's email is
    neither smaller nor greater than the participant's. *)
Lemma self_message_keeps_one_participant :
  exists d,
    recipient_type (Fixture.fields_of self_message) = PERSONAL Fixture.env /\
    resolved_recipient Fixture.env (Fixture.fields_of self_message)
    = Participants [Fixture.alice] /\
    fst (build_message_dict Fixture.env false None
           (Fixture.fields_of self_message) Fixture.empty_world) = Ok d /\
    d !! "display_recipient" = Some (VList [participant_value Fixture.alice]) /\
    ~ (exists x y : value, d !! "display_recipient" = Some (VList [x; y])).
Proof.
  eexists. split; [reflexivity|]. split; [reflexivity|].
  split; [reflexivity|]. split; [reflexivity|].
  intros (x & y & H). discriminate H.
Qed.

(** ** Contract violations *)

Section Contract.
Context {Store : Type}.
Variable env : collaborators Store.

(** C9: when the recipient type is none of STREAM, PERSONAL and HUDDLE,
    build_message_dict returns no dict: no branch binds display_type, and
    reading it raises; and for a PERSONAL or HUDDLE recipient, a display
    recipient that is a bare string fails the assertion.  Neither failure
    touches the world. *)
Theorem invalid_recipient_is_fatal (apply_markdown : bool)
    (message : option Message.t) (f : fields) (w : world Store) :
  (recipient_type f <> STREAM env ->
   recipient_type f <> HUDDLE env ->
   recipient_type f <> PERSONAL env ->
   build_message_dict env apply_markdown message f w
   = (Raise (UnboundLocalError "display_type"), w)) /\
  (recipient_type f <> STREAM env ->
   recipient_type f = HUDDLE env \/ recipient_type f = PERSONAL env ->
   forall name,
     resolved_recipient env f = StreamName name ->
     build_message_dict env apply_markdown message f w
     = (Raise AssertionError, w)).
Proof.
  split.
  - intros Hs Hh Hp. rewrite build_message_dict_stages. unfold resolve_display.
    destruct (Z.eqb_spec (recipient_type f) (STREAM env)); [contradiction|].
    destruct (Z.eqb_spec (recipient_type f) (HUDDLE env)); [contradiction|].
    destruct (Z.eqb_spec (recipient_type f) (PERSONAL env)); [contradiction|].
    reflexivity.
  - intros Hs Hp name Hn. rewrite build_message_dict_stages, Hn.
    unfold resolve_display.
    destruct (Z.eqb_spec (recipient_type f) (STREAM env)); [contradiction|].
    assert ((recipient_type f =? HUDDLE env) || (recipient_type f =? PERSONAL env)
            = true) as ->.
    { destruct Hp as [-> | ->]; rewrite Z.eqb_refl; [reflexivity|apply orb_true_r]. }
    reflexivity.
Qed.

(** C10: when last_edit_time is set and the stored edit_history is null,
    and ujson refuses to parse a null, build_message_dict raises and
    returns no dict; with a recipient that the builder accepts, the
    exception is the one of the parse of edit_history. *)
Theorem edited_without_history_raises (apply_markdown : bool)
    (message : option Message.t) (f : fields) (w : world Store)
    (t : datetime) (e : exc) :
  ujson_loads env None = Raise e ->
  last_edit_time f = Some t ->
  edit_history f = None ->
  exists e',
    build_message_dict env apply_markdown message f w = (Raise e', w) /\
    (recipient_ok env f -> e' = e).
Proof.
  intros Hl Ht Hh. rewrite build_message_dict_stages.
  assert (forall obj, add_edit_metadata env f obj = Raise e) as Hadd.
  { intros obj. unfold add_edit_metadata. rewrite Ht, Hh, Hl. reflexivity. }
  destruct (resolve_display env f _) as [[[dt|] dr]|e0] eqn:Hd.
  - rewrite Hadd. eauto.
  - eexists. split; [reflexivity|]. intros Hok.
    destruct (resolve_display_ok env f Hok) as (dt & dr' & Hd').
    congruence.
  - eexists. split; [reflexivity|]. intros Hok.
    destruct (resolve_display_ok env f Hok) as (dt & dr' & Hd').
    congruence.
Qed.

End Contract.

(** A recipient type that is none of the three: the read of display_type
    raises. *)
Example unknown_type_example :
  build_message_dict Fixture.env true None
    (Fixture.fields_of (Fixture.message 5 1 "hi")) Fixture.empty_world
  = (Raise (UnboundLocalError "display_type"), Fixture.empty_world).
Proof. reflexivity. Qed.

(** A personal message whose recipient resolves to a stream name: the
    assertion fails. *)
Example string_recipient_example :
  build_message_dict Fixture.env true None
    (Fixture.fields_of (Fixture.message 1 10 "hi")) Fixture.empty_world
  = (Raise AssertionError, Fixture.empty_world).
Proof. reflexivity. Qed.

(** On the stream message above the parse of the null history raises
    ujson's TypeError. *)
Lemma edited_without_history_example :
  build_message_dict Fixture.env true None (Fixture.fields_of edited_message)
    Fixture.empty_world
  = (Raise TypeError, Fixture.empty_world).
Proof.
  destruct (edited_without_history_raises Fixture.env true None
              (Fixture.fields_of edited_message) Fixture.empty_world
              Fixture.epoch TypeError)
    as (e' & Hb & He); [reflexivity | reflexivity | reflexivity |].
  rewrite Hb, He; [reflexivity|]. left. reflexivity.
Defined.

(** ** Edit metadata and raw content *)

Section Metadata.
Context {Store : Type}.
Variable env : collaborators Store.

(** C6: a dict that build_message_dict returns has the key
    last_edit_timestamp if and only if last_edit_time is not null, and the
    key edit_history if and only if last_edit_time is not null; when they
    are there, last_edit_timestamp is the integer that
    datetime_to_timestamp gives for last_edit_time and edit_history is
    what ujson parsed from the stored text. *)
Theorem edit_metadata_iff_edited (apply_markdown : bool)
    (message : option Message.t) (f : fields) (w w' : world Store)
    (d : gmap string value) :
  build_message_dict env apply_markdown message f w = (Ok d, w') ->
  (is_Some (d !! "last_edit_timestamp") <-> last_edit_time f <> None) /\
  (is_Some (d !! "edit_history") <-> last_edit_time f <> None) /\
  (forall t,
     last_edit_time f = Some t ->
     d !! "last_edit_timestamp" = Some (VInt (datetime_to_timestamp env t)) /\
     exists history,
       ujson_loads env (edit_history f) = Ok history /\
       d !! "edit_history" = Some history).
Proof.
  intros Hb.
  apply build_message_dict_inv in Hb as (dt & dr & obj & _ & He & Hc).
  rewrite (resolve_content_other env _ _ _ _ _ _ _ "last_edit_timestamp" Hc)
    by discriminate.
  rewrite (resolve_content_other env _ _ _ _ _ _ _ "edit_history" Hc)
    by discriminate.
  destruct (initial_obj_not_edited env f (avatar_of env f) dt dr) as [H1 H2].
  unfold add_edit_metadata in He.
  destruct (last_edit_time f) as [t|].
  - destruct (ujson_loads env (edit_history f)) as [history|] eqn:Hl;
      [|discriminate].
    apply Ok_inj in He. subst obj.
    rewrite lookup_insert_ne by discriminate.
    rewrite !lookup_insert_eq.
    split; [|split].
    + split; [discriminate | eauto].
    + split; [discriminate | eauto].
    + intros t' [= <-]. eauto.
  - apply Ok_inj in He. subst obj. rewrite H1, H2.
    split; [|split].
    + split; [intros [? ?]; discriminate | congruence].
    + split; [intros [? ?]; discriminate | congruence].
    + discriminate.
Qed.

(** C4: with apply_markdown false, build_message_dict leaves the world as
    it found it (the record store, and the log of calls: no fetch, no
    render, no save); a dict that it returns has the raw stored body as
    content and text/x-markdown as content_type; and it does return a dict
    whenever the recipient is one that the builder accepts and the edit
    history, if the message was edited, parses. *)
Theorem markdown_off_is_raw_and_pure (message : option Message.t)
    (f : fields) (w : world Store) :
  exists r,
    build_message_dict env false message f w = (r, w) /\
    (forall d,
       r = Ok d ->
       d !! "content" = Some (VStr (content f)) /\
       d !! "content_type" = Some (VStr "text/x-markdown")) /\
    (recipient_ok env f -> edit_history_ok env f -> exists d, r = Ok d).
Proof.
  rewrite build_message_dict_stages.
  destruct (resolve_display env f _) as [[[dt|] dr]|e] eqn:Hd.
  - destruct (add_edit_metadata env f _) as [obj|e] eqn:He.
    + rewrite resolve_content_off. eexists. split; [reflexivity|].
      split; [|eauto].
      intros d [= <-]. split.
      * rewrite lookup_insert_ne by discriminate. apply lookup_insert_eq.
      * apply lookup_insert_eq.
    + eexists. split; [reflexivity|]. split; [discriminate|].
      intros _ Hok.
      destruct (add_edit_metadata_ok env f
                  (initial_obj env f (avatar_of env f) dt dr) Hok).
      congruence.
  - eexists. split; [reflexivity|]. split; [discriminate|].
    intros Hok _. destruct (resolve_display_ok env f Hok) as (? & ? & ?).
    congruence.
  - eexists. split; [reflexivity|]. split; [discriminate|].
    intros Hok _. destruct (resolve_display_ok env f Hok) as (? & ? & ?).
    congruence.
Qed.

End Metadata.

(** A stream message with markdown off: the raw body, and no call. *)
Example markdown_off_example :
  exists d,
    build_message_dict Fixture.env false None
      (Fixture.fields_of (Fixture.message 2 10 "hi")) Fixture.empty_world
    = (Ok d, Fixture.empty_world) /\
    d !! "content" = Some (VStr "hi") /\
    d !! "content_type" = Some (VStr "text/x-markdown") /\
    d !! "type" = Some (VStr "stream") /\
    d !! "display_recipient" = Some (VStr "general").
Proof. eexists. repeat split; reflexivity. Qed.

(** The dict of the message above carries both keys, with the parsed
    history. *)
Lemma edit_metadata_example :
  exists d w',
    build_message_dict Fixture.env false None
      (Fixture.fields_of edited_with_history) Fixture.empty_world = (Ok d, w') /\
    d !! "last_edit_timestamp" = Some (VInt 0) /\
    d !! "edit_history" = Some (VList []).
Proof.
  edestruct (edit_metadata_iff_edited Fixture.env false None
               (Fixture.fields_of edited_with_history) Fixture.empty_world)
    as (_ & _ & Hv); [reflexivity|].
  destruct (Hv Fixture.epoch eq_refl) as (Ht & history & Hl & Hh).
  injection Hl as <-.
  eexists _, _. split; [reflexivity|]. split; [exact Ht | exact Hh].
Defined.

(** ** Rendering on the read path *)

Section Rendering.
Context {Store : Type}.
Variable env : collaborators Store.

(** The outcome of a build that renders: the stages before the content
    stage, then fetch, render and save. *)
Lemma build_message_dict_stale (message : option Message.t) (f : fields)
    (w : world Store) (m : Message.t) :
  need_to_render_content env (rendered_content f) (rendered_content_version f)
    (bugdown_version env) = true ->
  message_to_render env message f w = Ok m ->
  recipient_ok env f ->
  edit_history_ok env f ->
  exists obj,
    let rc := render_markdown env m (content f) (sender_realm_domain f) in
    let w1 :=
      logged (CallRender (Message.id m) (content f) (sender_realm_domain f))
        (after_get message f w) in
    let saved := CallSave (Message.id m) rc (Some (bugdown_version env)) in
    build_message_dict env true message f w =
    match save_rendered_content env (store w)
            (Message.set_rendered m rc (bugdown_version env)) with
    | Raise e => (Raise e, logged saved w1)
    | Ok s' =>
        (Ok (<["content_type" := VStr "text/html"]>
               (<["content" :=
                    VStr (match rc with
                          | Some html => html
                          | None => unparseable_notice
                          end)]> obj)),
         mk_world s' (calls w1 ++ [saved]))
    end.
Proof.
  intros Hn Hm Hr He.
  destruct (resolve_display_ok env f Hr) as (dt & dr & Hd).
  destruct (add_edit_metadata_ok env f
              (initial_obj env f (avatar_of env f) dt dr) He) as (obj & Ho).
  exists obj. cbv zeta.
  rewrite build_message_dict_stages, Hd, Ho.
  rewrite resolve_content_stale by exact Hn.
  rewrite Hm. reflexivity.
Qed.

(** C5, as amended: in a build with apply_markdown true in which the
    content is rendered and the rendering yields the null sentinel, the
    sentinel raises nothing: when save_rendered_content succeeds,
    build_message_dict returns a dict whose content is the fixed notice
    and whose content_type is text/html, and the store is the one the save
    returned; when save_rendered_content fails, its exception leaves
    build_message_dict and no dict is returned. *)
Theorem unparseable_falls_back (message : option Message.t) (f : fields)
    (w : world Store) (m : Message.t) :
  need_to_render_content env (rendered_content f) (rendered_content_version f)
    (bugdown_version env) = true ->
  message_to_render env message f w = Ok m ->
  render_markdown env m (content f) (sender_realm_domain f) = None ->
  recipient_ok env f ->
  edit_history_ok env f ->
  match save_rendered_content env (store w)
          (Message.set_rendered m None (bugdown_version env)) with
  | Ok s' =>
      exists d w',
        build_message_dict env true message f w = (Ok d, w') /\
        store w' = s' /\
        d !! "content"
        = Some (VStr "<p>[Zulip note: Sorry, we could not understand the formatting of your message]</p>") /\
        d !! "content_type" = Some (VStr "text/html")
  | Raise e =>
      exists w',
        build_message_dict env true message f w = (Raise e, w') /\
        store w' = store w
  end.
Proof.
  intros Hn Hm Hrc Hr He.
  destruct (build_message_dict_stale message f w m Hn Hm Hr He) as (obj & Hb).
  cbv zeta in Hb. rewrite Hrc in Hb. rewrite Hb.
  destruct (save_rendered_content env (store w) _) as [s'|e].
  - eexists _, _. split; [reflexivity|]. split; [reflexivity|]. split.
    + rewrite lookup_insert_ne by discriminate. apply lookup_insert_eq.
    + apply lookup_insert_eq.
  - eexists. split; [reflexivity|].
    destruct message; reflexivity.
Qed.

(** C2, as amended: in a build with apply_markdown true in which the
    stored rendered content is stale and a fresh rendered body is computed,
    build_message_dict returns a dict whose content is the fresh body when
    save_rendered_content succeeds; when save_rendered_content fails, its
    exception leaves build_message_dict and no dict is returned. *)
Theorem fresh_render_used_when_saved (message : option Message.t) (f : fields)
    (w : world Store) (m : Message.t) (html : text) :
  need_to_render_content env (rendered_content f) (rendered_content_version f)
    (bugdown_version env) = true ->
  message_to_render env message f w = Ok m ->
  render_markdown env m (content f) (sender_realm_domain f) = Some html ->
  recipient_ok env f ->
  edit_history_ok env f ->
  match save_rendered_content env (store w)
          (Message.set_rendered m (Some html) (bugdown_version env)) with
  | Ok s' =>
      exists d w',
        build_message_dict env true message f w = (Ok d, w') /\
        store w' = s' /\
        d !! "content" = Some (VStr html) /\
        d !! "content_type" = Some (VStr "text/html")
  | Raise e =>
      exists w',
        build_message_dict env true message f w = (Raise e, w') /\
        store w' = store w
  end.
Proof.
  intros Hn Hm Hrc Hr He.
  destruct (build_message_dict_stale message f w m Hn Hm Hr He) as (obj & Hb).
  cbv zeta in Hb. rewrite Hrc in Hb. rewrite Hb.
  destruct (save_rendered_content env (store w) _) as [s'|e].
  - eexists _, _. split; [reflexivity|]. split; [reflexivity|]. split.
    + rewrite lookup_insert_ne by discriminate. apply lookup_insert_eq.
    + apply lookup_insert_eq.
  - eexists. split; [reflexivity|].
    destruct message; reflexivity.
Qed.

End Rendering.

(** A stream message with an empty body, which the fixture's renderer
    cannot parse: built from its row with the record in the store, it is
    fetched, rendered and saved, and the dict carries the notice. *)
Lemma unparseable_example :
  exists d w',
    build_message_dict Fixture.env true None
      (Fixture.fields_of (Fixture.message 2 10 ""))
      (Fixture.world_with (Fixture.message 2 10 "")) = (Ok d, w') /\
    d !! "content"
    = Some (VStr "<p>[Zulip note: Sorry, we could not understand the formatting of your message]</p>") /\
    d !! "content_type" = Some (VStr "text/html").
Proof.
  pose proof (unparseable_falls_back Fixture.env None
                (Fixture.fields_of (Fixture.message 2 10 ""))
                (Fixture.world_with (Fixture.message 2 10 ""))
                (Fixture.message 2 10 "")
                eq_refl eq_refl eq_refl (or_introl eq_refl) (or_introl eq_refl))
    as H.
  hnf in H. destruct H as (d & w' & Hb & _ & Hc & Ht).
  exists d, w'. split; [exact Hb|]. split; [exact Hc | exact Ht].
Defined.

(** C5 as stated fails: the same message passed as a record that the
    store does not hold.  The rendering yields the null sentinel, the save
    of the null render fails, and the builder raises the save's exception
    instead of returning the dict with the notice. *)
Lemma unparseable_save_failure_aborts :
  need_to_render_content Fixture.env
    (Message.rendered_content (Fixture.message 2 10 ""))
    (Message.rendered_content_version (Fixture.message 2 10 ""))
    (bugdown_version Fixture.env) = true /\
  render_markdown Fixture.env (Fixture.message 2 10 "") "" "x.com" = None /\
  save_rendered_content Fixture.env (store Fixture.empty_world)
    (Message.set_rendered (Fixture.message 2 10 "") None
       (bugdown_version Fixture.env))
  = Raise DatabaseError /\
  build_message_dict Fixture.env true (Some (Fixture.message 2 10 ""))
    (Fixture.fields_of (Fixture.message 2 10 "")) Fixture.empty_world
  = (Raise DatabaseError,
     mk_world ∅ [CallRender 7 "" "x.com"; CallSave 7 None (Some 2)]).
Proof. repeat split; reflexivity. Qed.

(** A stream message built from its row with the record in the store: the
    save goes through and the dict carries the fresh body. *)
Lemma fresh_render_example :
  exists d w',
    build_message_dict Fixture.env true None
      (Fixture.fields_of (Fixture.message 2 10 "hi"))
      (Fixture.world_with (Fixture.message 2 10 "hi")) = (Ok d, w') /\
    d !! "content" = Some (VStr "<p>hi</p>").
Proof.
  pose proof (fresh_render_used_when_saved Fixture.env None
                (Fixture.fields_of (Fixture.message 2 10 "hi"))
                (Fixture.world_with (Fixture.message 2 10 "hi"))
                (Fixture.message 2 10 "hi") "<p>hi</p>"
                eq_refl eq_refl eq_refl (or_introl eq_refl) (or_introl eq_refl))
    as H.
  hnf in H. destruct H as (d & w' & Hb & _ & Hc & _).
  exists d, w'. split; [exact Hb | exact Hc].
Defined.

(** C2 as stated fails: the same message passed as a record that the store
    does not hold.  Its rendered content is stale, the fresh body is
    computed, the save fails, and the builder raises the save's exception
    instead of returning the dict with the fresh body. *)
Lemma save_failure_aborts_build :
  need_to_render_content Fixture.env
    (Message.rendered_content (Fixture.message 2 10 "hi"))
    (Message.rendered_content_version (Fixture.message 2 10 "hi"))
    (bugdown_version Fixture.env) = true /\
  render_markdown Fixture.env (Fixture.message 2 10 "hi") "hi" "x.com"
  = Some "<p>hi</p>" /\
  save_rendered_content Fixture.env (store Fixture.empty_world)
    (Message.set_rendered (Fixture.message 2 10 "hi") (Some "<p>hi</p>")
       (bugdown_version Fixture.env))
  = Raise DatabaseError /\
  build_message_dict Fixture.env true (Some (Fixture.message 2 10 "hi"))
    (Fixture.fields_of (Fixture.message 2 10 "hi")) Fixture.empty_world
  = (Raise DatabaseError,
     mk_world ∅ [CallRender 7 "hi" "x.com"; CallSave 7 (Some "<p>hi</p>") (Some 2)]).
Proof. repeat split; reflexivity. Qed.

(** ** The two adapters and the encoded output *)

Section Adapters.
Context {Store : Type}.
Variable env : collaborators Store.

(** C7: for a message whose stored rendered content the render gate
    reports current, to_dict_uncached gives one and the same outcome (the
    same encoded bytes, or the same exception) in every world, and leaves
    the world as it found it: two runs on identical inputs produce
    identical bytes. *)
Theorem to_dict_uncached_deterministic (message : Message.t)
    (apply_markdown : bool) :
  need_to_render_content env (Message.rendered_content message)
    (Message.rendered_content_version message) (bugdown_version env) = false ->
  exists r : result bytes,
    forall w : world Store,
      to_dict_uncached env message apply_markdown w = (r, w).
Proof.
  intros Hn. unfold to_dict_uncached, to_dict_uncached_helper, bind.
  set (f := mk_fields _ _ _ _ _ _ _ _ _ _ _ _ _ _ _ _ _ _ _).
  destruct (resolve_display env f (resolved_recipient env f))
    as [[[dt|] dr]|e] eqn:Hd.
  - destruct (add_edit_metadata env f
                (initial_obj env f (avatar_of env f) dt dr)) as [obj|e] eqn:He.
    + destruct apply_markdown.
      * eexists. intros w.
        rewrite build_message_dict_stages, Hd, He.
        rewrite resolve_content_fresh by exact Hn. reflexivity.
      * eexists. intros w.
        rewrite build_message_dict_stages, Hd, He.
        rewrite resolve_content_off. reflexivity.
    + eexists. intros w. rewrite build_message_dict_stages, Hd, He. reflexivity.
  - eexists. intros w. rewrite build_message_dict_stages, Hd. reflexivity.
  - eexists. intros w. rewrite build_message_dict_stages, Hd. reflexivity.
Qed.

(** C8: the record adapter and the row adapter, given a message record
    and its flat projection, return the same outcome (the same dict) and
    leave the same record store, for both values of apply_markdown; when
    the build has to render, that is for a record that the store holds
    under its id, which the row adapter fetches. *)
Theorem adapters_agree (message : Message.t) (apply_markdown : bool)
    (w : world Store) :
  apply_markdown = false \/
  need_to_render_content env (Message.rendered_content message)
    (Message.rendered_content_version message) (bugdown_version env) = false \/
  objects_get env (store w) (Message.id message) = Ok message ->
  fst (to_dict_uncached_helper env message apply_markdown w)
  = fst (build_dict_from_raw_db_row env (values message) apply_markdown w) /\
  store (snd (to_dict_uncached_helper env message apply_markdown w))
  = store (snd (build_dict_from_raw_db_row env (values message) apply_markdown w)).
Proof.
  intros H. unfold to_dict_uncached_helper, build_dict_from_raw_db_row, values.
  cbn [RawRow.id RawRow.last_edit_time RawRow.edit_history RawRow.content RawRow.subject
       RawRow.pub_date RawRow.rendered_content RawRow.rendered_content_version
       RawRow.sender_id RawRow.sender__email RawRow.sender__realm__domain
       RawRow.sender__full_name RawRow.sender__short_name RawRow.sender__avatar_source
       RawRow.sender__is_mirror_dummy RawRow.sending_client__name RawRow.recipient_id
       RawRow.recipient__type RawRow.recipient__type_id].
  set (f := mk_fields _ _ _ _ _ _ _ _ _ _ _ _ _ _ _ _ _ _ _).
  rewrite !build_message_dict_stages.
  destruct (resolve_display env f (resolved_recipient env f))
    as [[[dt|] dr]|e]; try (split; reflexivity).
  destruct (add_edit_metadata env f _) as [obj|e]; try (split; reflexivity).
  destruct apply_markdown.
  - destruct (need_to_render_content env (rendered_content f)
                (rendered_content_version f) (bugdown_version env)) eqn:Hn.
    + destruct H as [H | [H | H]]; [discriminate H | | ].
      { subst f. cbn [rendered_content rendered_content_version] in Hn.
        congruence. }
      rewrite !resolve_content_stale by exact Hn.
      unfold message_to_render.
      replace (message_id f) with (Message.id message) by reflexivity.
      rewrite H. cbv zeta.
      destruct (save_rendered_content env (store w) _); split; reflexivity.
    + rewrite !resolve_content_fresh by exact Hn. split; reflexivity.
  - rewrite !resolve_content_off. split; reflexivity.
Qed.

(** The two codec functions call the libraries in mirrored order: if
    zlib decompresses what it compressed, the bytes of a text decode to
    the text, ujson parses what it printed for the dict back to the dict,
    and dict_with_str_keys leaves the dict as it is, then decoding what
    stringify_message_dict encoded gives the dict back.  Whether the
    libraries do so for a given dict is not a fact of message.py. *)
Lemma extract_stringify (d : gmap string value) :
  (forall b, zlib_decompress env (zlib_compress env b) = Ok b) ->
  (forall s, decode_utf8 env (force_bytes env s) = Ok s) ->
  ujson_loads env (Some (ujson_dumps env (VDict d))) = Ok (VDict d) ->
  dict_with_str_keys env (VDict d) = Ok d ->
  extract_message_dict env (stringify_message_dict env d) = Ok d.
Proof.
  intros Hz Hu Hj Hk. unfold extract_message_dict, stringify_message_dict.
  rewrite Hz, Hu, Hj. exact Hk.
Qed.

End Adapters.

(** The rendered message encodes to the same bytes in the empty store and
    in a store that holds it. *)
Lemma deterministic_example :
  exists b,
    to_dict_uncached Fixture.env rendered_message true Fixture.empty_world
    = (Ok b, Fixture.empty_world) /\
    to_dict_uncached Fixture.env rendered_message true
      (Fixture.world_with rendered_message)
    = (Ok b, Fixture.world_with rendered_message).
Proof.
  destruct (to_dict_uncached_deterministic Fixture.env rendered_message true
              eq_refl) as (r & Hr).
  assert (is_ok r = true) as Hok.
  { replace r with
      (fst (to_dict_uncached Fixture.env rendered_message true
              Fixture.empty_world))
      by (rewrite Hr; reflexivity).
    reflexivity. }
  destruct r as [b|e]; [|discriminate Hok].
  exists b. split; apply Hr.
Defined.

(** A never-rendered stream message that the store holds: both adapters
    render it and return the same dict. *)
Lemma adapters_agree_example :
  fst (to_dict_uncached_helper Fixture.env (Fixture.message 2 10 "hi") true
         (Fixture.world_with (Fixture.message 2 10 "hi")))
  = fst (build_dict_from_raw_db_row Fixture.env
           (values (Fixture.message 2 10 "hi")) true
           (Fixture.world_with (Fixture.message 2 10 "hi"))) /\
  is_ok (fst (build_dict_from_raw_db_row Fixture.env
                (values (Fixture.message 2 10 "hi")) true
                (Fixture.world_with (Fixture.message 2 10 "hi")))) = true.
Proof.
  split; [|reflexivity].
  apply (adapters_agree Fixture.env (Fixture.message 2 10 "hi") true
           (Fixture.world_with (Fixture.message 2 10 "hi"))).
  right. right. reflexivity.
Defined.

(** A dict with one key through the fixture's codec. *)
Lemma extract_stringify_example :
  extract_message_dict Fixture.env
    (stringify_message_dict Fixture.env {[ "id" := VInt 7 ]})
  = Ok {[ "id" := VInt 7 ]}.
Proof.
  apply (extract_stringify Fixture.env {[ "id" := VInt 7 ]}).
  - intros b. reflexivity.
  - intros s. simpl. f_equal. apply String.string_of_list_byte_of_string.
  - reflexivity.
  - reflexivity.
Defined.

(** * Further properties of message.py *)

(** ** The recipient and the fixed keys *)

Section Recipients.
Context {Store : Type}.
Variable env : collaborators Store.

(** The fixed keys of a returned dict are as the second stage wrote them. *)
Lemma build_fixed_lookup (apply_markdown : bool) (message : option Message.t)
    (f : fields) (w w' : world Store) (d : gmap string value) :
  build_message_dict env apply_markdown message f w = (Ok d, w') ->
  exists display_type display_recipient,
    resolve_display env f (resolved_recipient env f)
    = Ok (Some display_type, display_recipient) /\
    forall k,
      k <> "content" -> k <> "content_type" ->
      k <> "last_edit_timestamp" -> k <> "edit_history" ->
      d !! k
      = initial_obj env f (avatar_of env f) display_type display_recipient !! k.
Proof.
  intros Hb.
  apply build_message_dict_inv in Hb as (dt & dr & obj & Hd & He & Hc).
  exists dt, dr. split; [exact Hd|].
  intros k H1 H2 H3 H4.
  rewrite (resolve_content_other env _ _ _ _ _ _ _ k Hc) by assumption.
  apply (add_edit_metadata_other env _ _ _ k He); assumption.
Qed.

Lemma resolve_display_stream (f : fields) (dr : display_recipient_t) :
  recipient_type f = STREAM env ->
  resolve_display env f dr = Ok (Some "stream", dr).
Proof. intros H. unfold resolve_display. rewrite H, Z.eqb_refl. reflexivity. Qed.

Lemma resolve_display_group (f : fields) (l : list participant) :
  recipient_type f <> STREAM env ->
  recipient_type f = HUDDLE env \/ recipient_type f = PERSONAL env ->
  length l <> 1%nat ->
  resolve_display env f (Participants l) = Ok (Some "private", Participants l).
Proof.
  intros Hs Hp Hl. unfold resolve_display.
  destruct (Z.eqb_spec (recipient_type f) (STREAM env)) as [E|_]; [contradiction|].
  assert ((recipient_type f =? HUDDLE env) || (recipient_type f =? PERSONAL env)
          = true) as ->.
  { destruct Hp as [-> | ->]; rewrite Z.eqb_refl; [reflexivity|apply orb_true_r]. }
  destruct l as [|first [|second rest]]; try reflexivity.
  simpl in Hl. congruence.
Qed.

(** X1: for a STREAM recipient the dict has type stream and carries the
    display recipient exactly as the resolver returned it; the sender is
    never added. *)
Theorem stream_recipient_passes_through (apply_markdown : bool)
    (message : option Message.t) (f : fields) (w w' : world Store)
    (d : gmap string value) :
  recipient_type f = STREAM env ->
  build_message_dict env apply_markdown message f w = (Ok d, w') ->
  d !! "type" = Some (VStr "stream") /\
  d !! "display_recipient"
  = Some (display_recipient_value (resolved_recipient env f)).
Proof.
  intros Hs Hb.
  apply build_fixed_lookup in Hb as (dt & dr & Hd & Hk).
  rewrite (resolve_display_stream _ _ Hs) in Hd.
  apply Ok_inj in Hd. injection Hd as <- <-.
  split; rewrite Hk by discriminate; reflexivity.
Qed.

(** X2: for a PERSONAL or HUDDLE recipient that resolves to no participant
    or to two or more, the dict has type private and lists the participants
    as resolved, in the resolver's order; the sender's descriptor is not
    added. *)
Theorem group_recipient_is_kept (apply_markdown : bool)
    (message : option Message.t) (f : fields) (l : list participant)
    (w w' : world Store) (d : gmap string value) :
  recipient_type f <> STREAM env ->
  recipient_type f = HUDDLE env \/ recipient_type f = PERSONAL env ->
  resolved_recipient env f = Participants l ->
  length l <> 1%nat ->
  build_message_dict env apply_markdown message f w = (Ok d, w') ->
  d !! "type" = Some (VStr "private") /\
  d !! "display_recipient" = Some (VList (map participant_value l)).
Proof.
  intros Hs Hp Hr Hl Hb.
  apply build_fixed_lookup in Hb as (dt & dr & Hd & Hk).
  rewrite Hr, (resolve_display_group _ _ Hs Hp Hl) in Hd.
  apply Ok_inj in Hd. injection Hd as <- <-.
  split; rewrite Hk by discriminate; reflexivity.
Qed.

(** The pair that the display stage returns for a sender and one other
    participant depends on the two descriptors only, not on which of them
    is the sender. *)
Lemma resolve_display_pair (f : fields) (other : participant) :
  recipient_type f <> STREAM env ->
  recipient_type f = HUDDLE env \/ recipient_type f = PERSONAL env ->
  p_email (recip f) <> p_email other ->
  resolve_display env f (Participants [other])
  = Ok (Some "private",
        Participants (if text_lt (p_email (recip f)) (p_email other)
                      then [recip f; other] else [other; recip f])).
Proof.
  intros Hs Hp Hne. unfold resolve_display.
  destruct (Z.eqb_spec (recipient_type f) (STREAM env)) as [E|_]; [contradiction|].
  assert ((recipient_type f =? HUDDLE env) || (recipient_type f =? PERSONAL env)
          = true) as ->.
  { destruct Hp as [-> | ->]; rewrite Z.eqb_refl; [reflexivity|apply orb_true_r]. }
  cbv zeta.
  destruct (text_lt (p_email (recip f)) (p_email other)) eqn:Hlt; [reflexivity|].
  rewrite (text_lt_total _ _ Hne Hlt). reflexivity.
Qed.

(** X3: a one-to-one conversation shows the same display_recipient
    whichever of the two users sent the message: when each message
    resolves to the other user's descriptor and the emails differ, the two
    dicts carry the same two-element list. *)
Theorem conversation_is_symmetric (am1 am2 : bool)
    (msg1 msg2 : option Message.t) (f1 f2 : fields)
    (w1 w1' w2 w2' : world Store) (d1 d2 : gmap string value) :
  recipient_type f1 <> STREAM env ->
  recipient_type f1 = HUDDLE env \/ recipient_type f1 = PERSONAL env ->
  recipient_type f2 <> STREAM env ->
  recipient_type f2 = HUDDLE env \/ recipient_type f2 = PERSONAL env ->
  resolved_recipient env f1 = Participants [recip f2] ->
  resolved_recipient env f2 = Participants [recip f1] ->
  sender_email f1 <> sender_email f2 ->
  build_message_dict env am1 msg1 f1 w1 = (Ok d1, w1') ->
  build_message_dict env am2 msg2 f2 w2 = (Ok d2, w2') ->
  d1 !! "display_recipient" = d2 !! "display_recipient".
Proof.
  intros Hs1 Hp1 Hs2 Hp2 Hr1 Hr2 Hne Hb1 Hb2.
  apply build_fixed_lookup in Hb1 as (dt1 & dr1 & Hd1 & Hk1).
  apply build_fixed_lookup in Hb2 as (dt2 & dr2 & Hd2 & Hk2).
  rewrite Hr1, (resolve_display_pair f1 (recip f2) Hs1 Hp1 Hne) in Hd1.
  rewrite Hr2, (resolve_display_pair f2 (recip f1) Hs2 Hp2) in Hd2
    by (intros E; apply Hne; symmetry; exact E).
  apply Ok_inj in Hd1. injection Hd1 as <- <-.
  apply Ok_inj in Hd2. injection Hd2 as <- <-.
  rewrite Hk1, Hk2 by discriminate.
  rewrite !initial_obj_display_recipient.
  change (p_email (recip f1)) with (sender_email f1).
  change (p_email (recip f2)) with (sender_email f2).
  destruct (text_lt (sender_email f1) (sender_email f2)) eqn:H12.
  - rewrite (text_lt_asym _ _ H12). reflexivity.
  - pose proof (text_lt_total _ _ Hne H12) as H21. unfold text_gt in H21.
    fold (text_lt (sender_email f2) (sender_email f1)) in H21.
    rewrite H21. reflexivity.
Qed.

(** X4: every fixed key of a returned dict carries the input it is named
    after, or what the collaborator computed from that input; the stages
    that follow do not overwrite any of them. *)
Theorem fixed_keys_carry_inputs (apply_markdown : bool)
    (message : option Message.t) (f : fields) (w w' : world Store)
    (d : gmap string value) :
  build_message_dict env apply_markdown message f w = (Ok d, w') ->
  d !! "id" = Some (VInt (message_id f)) /\
  d !! "sender_email" = Some (VStr (sender_email f)) /\
  d !! "sender_full_name" = Some (VStr (sender_full_name f)) /\
  d !! "sender_short_name" = Some (VStr (sender_short_name f)) /\
  d !! "sender_domain" = Some (VStr (sender_realm_domain f)) /\
  d !! "sender_id" = Some (VInt (sender_id f)) /\
  d !! "recipient_id" = Some (VInt (recipient_id f)) /\
  d !! "subject" = Some (VStr (subject f)) /\
  d !! "timestamp" = Some (VInt (datetime_to_timestamp env (pub_date f))) /\
  d !! "gravatar_hash" = Some (VStr (gravatar_hash env (sender_email f))) /\
  d !! "avatar_url"
  = Some (VStr (get_avatar_url env (sender_avatar_source f) (sender_email f))) /\
  d !! "client" = Some (VStr (sending_client_name f)) /\
  d !! "subject_links"
  = Some (VList (map VStr (subject_links env
                             (text_lower env (sender_realm_domain f))
                             (subject f)))).
Proof.
  intros Hb.
  apply build_fixed_lookup in Hb as (dt & dr & _ & Hk).
  repeat split; rewrite Hk by discriminate; reflexivity.
Qed.

End Recipients.

(** bob's message to the stream general. *)
Lemma stream_recipient_example :
  exists d w',
    build_message_dict Fixture.env false None
      (Fixture.fields_of (Fixture.message 2 10 "hi")) Fixture.empty_world
    = (Ok d, w') /\
    d !! "type" = Some (VStr "stream") /\
    d !! "display_recipient" = Some (VStr "general").
Proof.
  edestruct (stream_recipient_passes_through Fixture.env false None
               (Fixture.fields_of (Fixture.message 2 10 "hi"))
               Fixture.empty_world) as (Ht & Hd); [reflexivity | reflexivity |].
  eexists _, _. split; [reflexivity|]. split; [exact Ht | exact Hd].
Defined.

(** bob's message to the group of alice and bob: the two are listed as
    resolved, and bob is not added a second time. *)
Lemma group_recipient_example :
  exists d w',
    build_message_dict Fixture.env false None (Fixture.fields_of group_message)
      Fixture.empty_world = (Ok d, w') /\
    d !! "type" = Some (VStr "private") /\
    d !! "display_recipient"
    = Some (VList [participant_value Fixture.alice;
                   participant_value Fixture.bob]).
Proof.
  edestruct (group_recipient_is_kept Fixture.env false None
               (Fixture.fields_of group_message) [Fixture.alice; Fixture.bob]
               Fixture.empty_world) as (Ht & Hd);
    [discriminate | left; reflexivity | reflexivity | discriminate
    | reflexivity |].
  eexists _, _. split; [reflexivity|]. split; [exact Ht | exact Hd].
Defined.

(** alice writes to bob, and bob writes to alice: both dicts list alice,
    then bob. *)
Lemma conversation_example :
  exists d1 d2,
    fst (build_message_dict pair_env false None (Fixture.fields_of alice_to_bob)
           Fixture.empty_world) = Ok d1 /\
    fst (build_message_dict pair_env false None
           (Fixture.fields_of (Fixture.message 1 1 "hi"))
           Fixture.empty_world) = Ok d2 /\
    d1 !! "display_recipient" = d2 !! "display_recipient" /\
    d1 !! "display_recipient"
    = Some (VList [participant_value Fixture.alice;
                   participant_value Fixture.bob]).
Proof.
  eexists _, _. split; [reflexivity|]. split; [reflexivity|].
  split; [|reflexivity].
  eapply (conversation_is_symmetric pair_env false false None None
            (Fixture.fields_of alice_to_bob)
            (Fixture.fields_of (Fixture.message 1 1 "hi"))
            Fixture.empty_world _ Fixture.empty_world _);
    [discriminate | right; reflexivity | discriminate | right; reflexivity
    | reflexivity | reflexivity | discriminate | reflexivity | reflexivity].
Defined.

(** The fixed keys of bob's stream message. *)
Lemma fixed_keys_example :
  exists d w',
    build_message_dict Fixture.env false None
      (Fixture.fields_of (Fixture.message 2 10 "hi")) Fixture.empty_world
    = (Ok d, w') /\
    d !! "id" = Some (VInt 7) /\
    d !! "sender_email" = Some (VStr "b@x.com") /\
    d !! "client" = Some (VStr "website") /\
    d !! "avatar_url" = Some (VStr "/avatar/b@x.com").
Proof.
  edestruct (fixed_keys_carry_inputs Fixture.env false None
               (Fixture.fields_of (Fixture.message 2 10 "hi"))
               Fixture.empty_world)
    as (H1 & H2 & _ & _ & _ & _ & _ & _ & _ & _ & H3 & H4 & _); [reflexivity|].
  eexists _, _. split; [reflexivity|].
  split; [exact H1|]. split; [exact H2|]. split; [exact H4 | exact H3].
Defined.

(** ** The key set and the content type *)

Section Shape.
Context {Store : Type}.
Variable env : collaborators Store.

Lemma dom_initial_obj (f : fields) (a dt : text) (dr : display_recipient_t) :
  dom (initial_obj env f a dt dr) = fixed_keys.
Proof.
  unfold initial_obj. cbv zeta.
  rewrite dom_insert_L, dom_list_to_map_L. cbn [fmap list_fmap fst].
  apply set_eq. intros k. unfold fixed_keys.
  rewrite elem_of_union, elem_of_singleton, !elem_of_list_to_set,
    !list_elem_of_In.
  simpl. intuition.
Qed.

Lemma dom_add_edit_metadata (f : fields) (obj obj' : gmap string value) :
  add_edit_metadata env f obj = Ok obj' ->
  dom obj'
  = dom obj ∪ match last_edit_time f with Some _ => edit_keys | None => ∅ end.
Proof.
  unfold add_edit_metadata. intros H. destruct (last_edit_time f).
  - destruct (ujson_loads env (edit_history f)); [|discriminate].
    apply Ok_inj in H. subst obj'. rewrite !dom_insert_L.
    unfold edit_keys. cbn [list_to_set foldr].
    set_unfold. intros k. tauto.
  - apply Ok_inj in H. subst obj'. set_unfold. intros k. tauto.
Qed.

(** X5: a returned dict has exactly the fifteen fixed keys, the keys
    content and content_type, and, if and only if last_edit_time is set,
    the keys last_edit_timestamp and edit_history; it has no other key. *)
Theorem returned_keys_are_exact (apply_markdown : bool)
    (message : option Message.t) (f : fields) (w w' : world Store)
    (d : gmap string value) :
  build_message_dict env apply_markdown message f w = (Ok d, w') ->
  dom d
  = fixed_keys ∪ content_keys
    ∪ match last_edit_time f with Some _ => edit_keys | None => ∅ end.
Proof.
  intros Hb.
  apply build_message_dict_inv in Hb as (dt & dr & obj & _ & He & Hc).
  apply resolve_content_shape in Hc as (c & ct & ->).
  rewrite !dom_insert_L, (dom_add_edit_metadata _ _ _ He), dom_initial_obj.
  unfold content_keys. cbn [list_to_set foldr].
  set_unfold. intros k. tauto.
Qed.

Lemma resolve_content_type (apply_markdown : bool) (message : option Message.t)
    (f : fields) (obj d : gmap string value) (w w' : world Store) :
  resolve_content env apply_markdown message f obj w = (Ok d, w') ->
  d !! "content_type"
  = Some (VStr (if apply_markdown then "text/html" else "text/x-markdown")).
Proof.
  destruct apply_markdown.
  - destruct (need_to_render_content env (rendered_content f)
                (rendered_content_version f) (bugdown_version env)) eqn:Hn.
    + rewrite resolve_content_stale by exact Hn.
      destruct (message_to_render env message f w); [|discriminate].
      cbv zeta.
      destruct (save_rendered_content env (store w) _); [|discriminate].
      intros H. apply pair_equal_spec in H as [H _]. apply Ok_inj in H.
      subst d. apply lookup_insert_eq.
    + rewrite resolve_content_fresh by exact Hn.
      intros H. apply pair_equal_spec in H as [H _]. apply Ok_inj in H.
      subst d. apply lookup_insert_eq.
  - rewrite resolve_content_off.
    intros H. apply pair_equal_spec in H as [H _]. apply Ok_inj in H.
    subst d. apply lookup_insert_eq.
Qed.

(** X6: the content_type of a returned dict is decided by apply_markdown
    alone: text/html when it is true, whether the content was stored,
    freshly rendered or replaced by the notice, and text/x-markdown when
    it is false. *)
Theorem content_type_follows_flag (apply_markdown : bool)
    (message : option Message.t) (f : fields) (w w' : world Store)
    (d : gmap string value) :
  build_message_dict env apply_markdown message f w = (Ok d, w') ->
  d !! "content_type"
  = Some (VStr (if apply_markdown then "text/html" else "text/x-markdown")).
Proof.
  intros Hb.
  apply build_message_dict_inv in Hb as (dt & dr & obj & _ & _ & Hc).
  exact (resolve_content_type _ _ _ _ _ _ _ Hc).
Qed.

End Shape.

(** The edited stream message has the two edit keys on top of the
    seventeen of every dict. *)
Lemma returned_keys_example :
  exists d w',
    build_message_dict Fixture.env false None
      (Fixture.fields_of edited_with_history) Fixture.empty_world = (Ok d, w') /\
    dom d = fixed_keys ∪ content_keys ∪ edit_keys /\
    size (dom d) = 19%nat.
Proof.
  eexists _, _. split; [reflexivity|].
  rewrite (returned_keys_are_exact Fixture.env false None
             (Fixture.fields_of edited_with_history) Fixture.empty_world
             _ _ eq_refl).
  split; reflexivity.
Defined.

(** The same message with markdown on and with markdown off. *)
Lemma content_type_example :
  exists d1 d2 w1 w2,
    build_message_dict Fixture.env true None (Fixture.fields_of rendered_message)
      Fixture.empty_world = (Ok d1, w1) /\
    build_message_dict Fixture.env false None (Fixture.fields_of rendered_message)
      Fixture.empty_world = (Ok d2, w2) /\
    d1 !! "content_type" = Some (VStr "text/html") /\
    d2 !! "content_type" = Some (VStr "text/x-markdown").
Proof.
  eexists _, _, _, _. split; [reflexivity|]. split; [reflexivity|].
  split.
  - exact (content_type_follows_flag Fixture.env true None
             (Fixture.fields_of rendered_message) Fixture.empty_world
             _ _ eq_refl).
  - exact (content_type_follows_flag Fixture.env false None
             (Fixture.fields_of rendered_message) Fixture.empty_world
             _ _ eq_refl).
Defined.

(** ** Rendering, fetching and saving *)

Section Effects.
Context {Store : Type}.
Variable env : collaborators Store.

Lemma calls_after_get (message : option Message.t) (f : fields)
    (w : world Store) :
  calls (after_get message f w) = (calls w ++ fetch_calls message f)%list /\
  store (after_get message f w) = store w.
Proof.
  destruct message; simpl; [rewrite app_nil_r|]; auto.
Qed.

(** X7: a build that renders makes exactly these calls, in this order: the
    fetch by id if and only if no message object was passed, then one
    render of the content argument in the sender's realm domain, then one
    save; what is saved is the render's result, the null sentinel
    included, with the current bugdown version, and the store after the
    build is the store that the save returned. *)
Theorem stale_build_renders_once (message : option Message.t) (f : fields)
    (w w' : world Store) (m : Message.t) (d : gmap string value) :
  need_to_render_content env (rendered_content f) (rendered_content_version f)
    (bugdown_version env) = true ->
  message_to_render env message f w = Ok m ->
  build_message_dict env true message f w = (Ok d, w') ->
  let rc := render_markdown env m (content f) (sender_realm_domain f) in
  calls w'
  = (calls w ++ fetch_calls message f
     ++ [CallRender (Message.id m) (content f) (sender_realm_domain f);
         CallSave (Message.id m) rc (Some (bugdown_version env))])%list /\
  save_rendered_content env (store w)
    (Message.set_rendered m rc (bugdown_version env)) = Ok (store w').
Proof.
  intros Hn Hm Hb rc.
  apply build_message_dict_inv in Hb as (dt & dr & obj & _ & _ & Hc).
  rewrite resolve_content_stale in Hc by exact Hn.
  rewrite Hm in Hc. cbv zeta in Hc. fold rc in Hc.
  destruct (save_rendered_content env (store w) _) as [s'|e]; [|discriminate].
  apply pair_equal_spec in Hc as [_ <-]. cbn [calls store logged].
  destruct (calls_after_get message f w) as [-> _].
  split; [|reflexivity].
  rewrite <- !app_assoc. reflexivity.
Qed.

(** X8: with apply_markdown true and rendered content that the render
    gate reports current, the builder makes no call and leaves the world
    as it found it; a dict that it returns has the stored rendered content
    as content (the notice if the stored content is null), and it returns
    one whenever the recipient and the edit history are accepted. *)
Theorem current_render_is_reused (message : option Message.t) (f : fields)
    (w : world Store) :
  need_to_render_content env (rendered_content f) (rendered_content_version f)
    (bugdown_version env) = false ->
  exists r,
    build_message_dict env true message f w = (r, w) /\
    (forall d,
       r = Ok d ->
       d !! "content"
       = Some (VStr (match rendered_content f with
                     | Some rc => rc
                     | None => unparseable_notice
                     end))) /\
    (recipient_ok env f -> edit_history_ok env f -> exists d, r = Ok d).
Proof.
  intros Hn. rewrite build_message_dict_stages.
  destruct (resolve_display env f _) as [[[dt|] dr]|e] eqn:Hd.
  - destruct (add_edit_metadata env f _) as [obj|e] eqn:He.
    + rewrite resolve_content_fresh by exact Hn.
      eexists. split; [reflexivity|]. split; [|eauto].
      intros d Hd'. apply Ok_inj in Hd'. subst d.
      rewrite lookup_insert_ne by discriminate. apply lookup_insert_eq.
    + eexists. split; [reflexivity|]. split; [discriminate|].
      intros _ Hok.
      destruct (add_edit_metadata_ok env f
                  (initial_obj env f (avatar_of env f) dt dr) Hok).
      congruence.
  - eexists. split; [reflexivity|]. split; [discriminate|].
    intros Hok _. destruct (resolve_display_ok env f Hok) as (? & ? & ?).
    congruence.
  - eexists. split; [reflexivity|]. split; [discriminate|].
    intros Hok _. destruct (resolve_display_ok env f Hok) as (? & ? & ?).
    congruence.
Qed.

(** X9: when a build from a row (no message object) has to render and the
    fetch by id raises, the builder raises the same exception; the fetch is
    the only call made, nothing is rendered or saved, and the store is
    unchanged. *)
Theorem failed_fetch_aborts_before_render (f : fields) (w : world Store)
    (e : exc) :
  need_to_render_content env (rendered_content f) (rendered_content_version f)
    (bugdown_version env) = true ->
  objects_get env (store w) (message_id f) = Raise e ->
  recipient_ok env f ->
  edit_history_ok env f ->
  build_message_dict env true None f w
  = (Raise e, mk_world (store w) (calls w ++ [CallGet (message_id f)])).
Proof.
  intros Hn Hg Hr He.
  destruct (resolve_display_ok env f Hr) as (dt & dr & Hd).
  destruct (add_edit_metadata_ok env f
              (initial_obj env f (avatar_of env f) dt dr) He) as (obj & Ho).
  rewrite build_message_dict_stages, Hd, Ho.
  rewrite resolve_content_stale by exact Hn.
  unfold message_to_render. rewrite Hg. reflexivity.
Qed.

(** X10: when last_edit_time is set and ujson cannot parse the stored
    edit_history, the builder raises before the content stage, for both
    values of apply_markdown: there is no fetch, no render and no save,
    whatever the state of the rendered content. *)
Theorem unparsed_history_stops_render (apply_markdown : bool)
    (message : option Message.t) (f : fields) (w : world Store)
    (t : datetime) (e : exc) :
  last_edit_time f = Some t ->
  ujson_loads env (edit_history f) = Raise e ->
  exists e',
    build_message_dict env apply_markdown message f w = (Raise e', w) /\
    (recipient_ok env f -> e' = e).
Proof.
  intros Ht Hl. rewrite build_message_dict_stages.
  assert (forall obj, add_edit_metadata env f obj = Raise e) as Hadd.
  { intros obj. unfold add_edit_metadata. rewrite Ht, Hl. reflexivity. }
  destruct (resolve_display env f _) as [[[dt|] dr]|e0] eqn:Hd.
  - rewrite Hadd. eauto.
  - eexists. split; [reflexivity|]. intros Hok.
    destruct (resolve_display_ok env f Hok) as (dt & dr' & Hd'). congruence.
  - eexists. split; [reflexivity|]. intros Hok.
    destruct (resolve_display_ok env f Hok) as (dt & dr' & Hd'). congruence.
Qed.

(** X11: for a message that was never edited (last_edit_time is null) the
    stored edit_history is not read: the builder's outcome is the same
    whatever edit_history holds, unparseable text included. *)
Theorem unedited_ignores_history (apply_markdown : bool)
    (message : option Message.t) (f : fields) (history : option text)
    (w : world Store) :
  last_edit_time f = None ->
  build_message_dict env apply_markdown message (with_edit_history f history) w
  = build_message_dict env apply_markdown message f w.
Proof.
  intros Hn. rewrite !build_message_dict_stages.
  assert (add_edit_metadata env (with_edit_history f history)
          = add_edit_metadata env f) as ->.
  { unfold add_edit_metadata, with_edit_history.
    cbn [last_edit_time edit_history]. rewrite Hn. reflexivity. }
  reflexivity.
Qed.

End Effects.

(** bob's stream message built from its row while the store holds it:
    fetch, render, save. *)
Lemma stale_build_example :
  exists d w',
    build_message_dict Fixture.env true None
      (Fixture.fields_of (Fixture.message 2 10 "hi"))
      (Fixture.world_with (Fixture.message 2 10 "hi")) = (Ok d, w') /\
    calls w'
    = [CallGet 7; CallRender 7 "hi" "x.com";
       CallSave 7 (Some "<p>hi</p>") (Some 2)].
Proof.
  destruct (build_message_dict_stale Fixture.env None
              (Fixture.fields_of (Fixture.message 2 10 "hi"))
              (Fixture.world_with (Fixture.message 2 10 "hi"))
              (Fixture.message 2 10 "hi")
              eq_refl eq_refl (or_introl eq_refl) (or_introl eq_refl))
    as (obj & Hb).
  cbv zeta in Hb.
  match type of Hb with
  | context [match ?s with Ok _ => _ | Raise _ => _ end] =>
      eassert (Hs : s = Ok _) by reflexivity; rewrite Hs in Hb
  end.
  eexists _, _. split; [exact Hb|].
  exact (proj1 (stale_build_renders_once Fixture.env None
                  (Fixture.fields_of (Fixture.message 2 10 "hi"))
                  (Fixture.world_with (Fixture.message 2 10 "hi")) _
                  (Fixture.message 2 10 "hi") _ eq_refl eq_refl Hb)).
Defined.

(** The rendered message with markdown on: the stored body, and no call. *)
Lemma current_render_example :
  exists d,
    build_message_dict Fixture.env true None (Fixture.fields_of rendered_message)
      Fixture.empty_world = (Ok d, Fixture.empty_world) /\
    d !! "content" = Some (VStr "<p>hi</p>").
Proof.
  destruct (current_render_is_reused Fixture.env None
              (Fixture.fields_of rendered_message) Fixture.empty_world eq_refl)
    as (r & Hb & Hc & Hret).
  destruct Hret as [d ->]; [left; reflexivity | left; reflexivity |].
  exists d. split; [exact Hb|]. exact (Hc d eq_refl).
Defined.

(** bob's stream message built from its row while the store is empty. *)
Lemma failed_fetch_example :
  build_message_dict Fixture.env true None
    (Fixture.fields_of (Fixture.message 2 10 "hi")) Fixture.empty_world
  = (Raise DoesNotExist, mk_world ∅ [CallGet 7]).
Proof.
  exact (failed_fetch_aborts_before_render Fixture.env
           (Fixture.fields_of (Fixture.message 2 10 "hi")) Fixture.empty_world
           DoesNotExist eq_refl eq_refl (or_introl eq_refl) (or_introl eq_refl)).
Defined.

(** The edited message with a history that is no JSON. *)
Lemma unparsed_history_example :
  build_message_dict Fixture.env true None
    (with_edit_history (Fixture.fields_of edited_message) (Some "oops"))
    Fixture.empty_world
  = (Raise ValueError, Fixture.empty_world).
Proof.
  destruct (unparsed_history_stops_render Fixture.env true None
              (with_edit_history (Fixture.fields_of edited_message) (Some "oops"))
              Fixture.empty_world Fixture.epoch ValueError eq_refl eq_refl)
    as (e' & Hb & He).
  rewrite Hb, He; [reflexivity|]. left. reflexivity.
Defined.

(** bob's unedited stream message with the same unparseable history. *)
Lemma unedited_history_example :
  build_message_dict Fixture.env false None
    (with_edit_history (Fixture.fields_of (Fixture.message 2 10 "hi"))
       (Some "oops"))
    Fixture.empty_world
  = build_message_dict Fixture.env false None
      (Fixture.fields_of (Fixture.message 2 10 "hi")) Fixture.empty_world /\
  is_ok (fst (build_message_dict Fixture.env false None
                (Fixture.fields_of (Fixture.message 2 10 "hi"))
                Fixture.empty_world)) = true.
Proof.
  split; [|reflexivity].
  exact (unedited_ignores_history Fixture.env false None
           (Fixture.fields_of (Fixture.message 2 10 "hi")) (Some "oops")
           Fixture.empty_world eq_refl).
Defined.

(** ** The adapters and the encoded output, continued *)

Section Callers.
Context {Store : Type}.
Variable env : collaborators Store.

(** Whatever the outcome, the builder adds to the log nothing, or the
    fetch alone (which then failed), or the fetch if any, one render and
    one save. *)
Lemma build_calls_shape (apply_markdown : bool) (message : option Message.t)
    (f : fields) (w : world Store) :
  exists l,
    calls (snd (build_message_dict env apply_markdown message f w))
    = (calls w ++ l)%list /\
    (l = [] \/
     l = fetch_calls message f \/
     exists id c dm rc v,
       l = (fetch_calls message f ++ [CallRender id c dm; CallSave id rc v])%list).
Proof.
  rewrite build_message_dict_stages.
  destruct (resolve_display env f _) as [[[dt|] dr]|e];
    try solve [exists []; rewrite app_nil_r; split; [reflexivity | auto]].
  destruct (add_edit_metadata env f _) as [obj|e];
    try solve [exists []; rewrite app_nil_r; split; [reflexivity | auto]].
  destruct apply_markdown.
  - destruct (need_to_render_content env (rendered_content f)
                (rendered_content_version f) (bugdown_version env)) eqn:Hn.
    + rewrite resolve_content_stale by exact Hn.
      destruct (calls_after_get message f w) as [Hc _].
      destruct (message_to_render env message f w) as [m|e].
      * cbv zeta.
        exists (fetch_calls message f
                ++ [CallRender (Message.id m) (content f) (sender_realm_domain f);
                    CallSave (Message.id m)
                      (render_markdown env m (content f) (sender_realm_domain f))
                      (Some (bugdown_version env))])%list.
        split.
        -- destruct (save_rendered_content env (store w) _);
             cbn [snd calls logged]; rewrite Hc, <- !app_assoc; reflexivity.
        -- right. right. eauto 6.
      * exists (fetch_calls message f). cbn [snd]. auto.
    + rewrite resolve_content_fresh by exact Hn.
      exists []. rewrite app_nil_r. split; [reflexivity | auto].
  - rewrite resolve_content_off.
    exists []. rewrite app_nil_r. split; [reflexivity | auto].
Qed.

(** X12: the record adapter never fetches: whatever it returns or raises,
    the calls it adds to the log contain no fetch by id; the message
    object it was given is the one that is rendered and saved. *)
Theorem record_adapter_never_fetches (message : Message.t)
    (apply_markdown : bool) (w : world Store) :
  exists l,
    calls (snd (to_dict_uncached_helper env message apply_markdown w))
    = (calls w ++ l)%list /\
    forallb (fun c => negb (is_get c)) l = true.
Proof.
  unfold to_dict_uncached_helper.
  set (f := mk_fields _ _ _ _ _ _ _ _ _ _ _ _ _ _ _ _ _ _ _).
  destruct (build_calls_shape apply_markdown (Some message) f w)
    as (l & Hc & [-> | [-> | (id & c & dm & rc & v & ->)]]);
    exists l || eexists; (split; [exact Hc | reflexivity]).
Qed.

(** X13: the row adapter reads the record store only to render: with
    apply_markdown false, or with rendered content in the row that the
    render gate reports current, it makes no call at all and leaves the
    world as it found it. *)
Theorem row_adapter_needs_no_record (row : RawRow.t) (apply_markdown : bool)
    (w : world Store) :
  apply_markdown = false \/
  need_to_render_content env (RawRow.rendered_content row)
    (RawRow.rendered_content_version row) (bugdown_version env) = false ->
  exists r, build_dict_from_raw_db_row env row apply_markdown w = (r, w).
Proof.
  intros H. unfold build_dict_from_raw_db_row.
  set (f := mk_fields _ _ _ _ _ _ _ _ _ _ _ _ _ _ _ _ _ _ _).
  rewrite build_message_dict_stages.
  destruct (resolve_display env f _) as [[[dt|] dr]|e]; eauto.
  destruct (add_edit_metadata env f _) as [obj|e]; eauto.
  destruct apply_markdown.
  - destruct H as [H | H]; [discriminate H|].
    rewrite resolve_content_fresh by exact H. eauto.
  - rewrite resolve_content_off. eauto.
Qed.

(** An exception of the helper passes through to_dict_uncached unchanged,
    with the world the helper left: nothing is encoded. *)
Lemma to_dict_uncached_propagates (message : Message.t)
    (apply_markdown : bool) (w w' : world Store) (e : exc) :
  to_dict_uncached_helper env message apply_markdown w = (Raise e, w') ->
  to_dict_uncached env message apply_markdown w = (Raise e, w').
Proof. intros Hh. unfold to_dict_uncached, bind. rewrite Hh. reflexivity. Qed.

(** X15: the record adapter takes every sender, recipient and client key
    of the dict from the record's joined objects: the sender's own fields,
    the domain of the sender's realm, the recipient's id and the name of
    the sending client. *)
Theorem record_adapter_wiring (message : Message.t) (apply_markdown : bool)
    (w w' : world Store) (d : gmap string value) :
  to_dict_uncached_helper env message apply_markdown w = (Ok d, w') ->
  d !! "id" = Some (VInt (Message.id message)) /\
  d !! "subject" = Some (VStr (Message.subject message)) /\
  d !! "sender_id" = Some (VInt (UserProfile.id (Message.sender message))) /\
  d !! "sender_email"
  = Some (VStr (UserProfile.email (Message.sender message))) /\
  d !! "sender_full_name"
  = Some (VStr (UserProfile.full_name (Message.sender message))) /\
  d !! "sender_short_name"
  = Some (VStr (UserProfile.short_name (Message.sender message))) /\
  d !! "sender_domain"
  = Some (VStr (Realm.domain (UserProfile.realm (Message.sender message)))) /\
  d !! "recipient_id" = Some (VInt (Recipient.id (Message.recipient message))) /\
  d !! "client" = Some (VStr (Client.name (Message.sending_client message))) /\
  d !! "timestamp"
  = Some (VInt (datetime_to_timestamp env (Message.pub_date message))).
Proof.
  unfold to_dict_uncached_helper. intros Hb.
  apply build_fixed_lookup in Hb as (dt & dr & _ & Hk).
  repeat split; rewrite Hk by discriminate; reflexivity.
Qed.

(** X16: the row adapter takes the same keys from the row's columns: id,
    subject, sender_id, the sender__ columns, sender__realm__domain,
    recipient_id and sending_client__name. *)
Theorem row_adapter_wiring (row : RawRow.t) (apply_markdown : bool)
    (w w' : world Store) (d : gmap string value) :
  build_dict_from_raw_db_row env row apply_markdown w = (Ok d, w') ->
  d !! "id" = Some (VInt (RawRow.id row)) /\
  d !! "subject" = Some (VStr (RawRow.subject row)) /\
  d !! "sender_id" = Some (VInt (RawRow.sender_id row)) /\
  d !! "sender_email" = Some (VStr (RawRow.sender__email row)) /\
  d !! "sender_full_name" = Some (VStr (RawRow.sender__full_name row)) /\
  d !! "sender_short_name" = Some (VStr (RawRow.sender__short_name row)) /\
  d !! "sender_domain" = Some (VStr (RawRow.sender__realm__domain row)) /\
  d !! "recipient_id" = Some (VInt (RawRow.recipient_id row)) /\
  d !! "client" = Some (VStr (RawRow.sending_client__name row)) /\
  d !! "timestamp"
  = Some (VInt (datetime_to_timestamp env (RawRow.pub_date row))).
Proof.
  unfold build_dict_from_raw_db_row. intros Hb.
  apply build_fixed_lookup in Hb as (dt & dr & _ & Hk).
  repeat split; rewrite Hk by discriminate; reflexivity.
Qed.

End Callers.

(** A never-rendered message through the record adapter with markdown on:
    one render and one save, and no fetch. *)
Example record_adapter_example :
  calls (snd (to_dict_uncached_helper Fixture.env (Fixture.message 2 10 "hi")
                true Fixture.empty_world))
  = [CallRender 7 "hi" "x.com"; CallSave 7 (Some "<p>hi</p>") (Some 2)].
Proof. reflexivity. Qed.

(** The row of a never-rendered message with markdown off, in the empty
    store: a dict, and no call. *)
Lemma row_adapter_example :
  exists r,
    build_dict_from_raw_db_row Fixture.env (values (Fixture.message 2 10 "hi"))
      false Fixture.empty_world = (r, Fixture.empty_world) /\
    is_ok r = true.
Proof.
  destruct (row_adapter_needs_no_record Fixture.env
              (values (Fixture.message 2 10 "hi")) false Fixture.empty_world
              (or_introl eq_refl)) as (r & Hr).
  exists r. split; [exact Hr|].
  replace r with
    (fst (build_dict_from_raw_db_row Fixture.env
            (values (Fixture.message 2 10 "hi")) false Fixture.empty_world))
    by (rewrite Hr; reflexivity).
  reflexivity.
Defined.

(** alice's message to bob through the record adapter. *)
Lemma wiring_record_example :
  exists d w',
    to_dict_uncached_helper Fixture.env alice_to_bob false Fixture.empty_world
    = (Ok d, w') /\
    d !! "sender_email" = Some (VStr "a@x.com") /\
    d !! "sender_domain" = Some (VStr "x.com") /\
    d !! "recipient_id" = Some (VInt 4) /\
    d !! "client" = Some (VStr "website").
Proof.
  edestruct (record_adapter_wiring Fixture.env alice_to_bob false
               Fixture.empty_world)
    as (_ & _ & _ & H1 & _ & _ & H2 & H3 & H4 & _); [reflexivity|].
  eexists _, _. split; [reflexivity|].
  split; [exact H1|]. split; [exact H2|]. split; [exact H3 | exact H4].
Defined.

(** The row of alice's message to bob through the row adapter. *)
Lemma wiring_row_example :
  exists d w',
    build_dict_from_raw_db_row Fixture.env (values alice_to_bob) false
      Fixture.empty_world = (Ok d, w') /\
    d !! "sender_email" = Some (VStr "a@x.com") /\
    d !! "sender_domain" = Some (VStr "x.com") /\
    d !! "recipient_id" = Some (VInt 4) /\
    d !! "client" = Some (VStr "website").
Proof.
  edestruct (row_adapter_wiring Fixture.env (values alice_to_bob) false
               Fixture.empty_world)
    as (_ & _ & _ & H1 & _ & _ & H2 & H3 & H4 & _); [reflexivity|].
  eexists _, _. split; [reflexivity|].
  split; [exact H1|]. split; [exact H2|]. split; [exact H3 | exact H4].
Defined.

(** ** The management command's re-render *)

Section Management.
Context {Store : Type}.
Variable env : collaborators Store.
Variable render_markdown_default : Message.t -> text -> option text.

(** X17: re_render_content_for_management_command refuses a message whose
    rendered content the render gate reports current: the assertion fails
    before anything is rendered or saved, and the world is unchanged. *)
Theorem re_render_refuses_current (message : Message.t) (w : world Store) :
  need_to_render_content env (Message.rendered_content message)
    (Message.rendered_content_version message) (bugdown_version env) = false ->
  re_render_content_for_management_command env render_markdown_default message w
  = (Raise AssertionError, w).
Proof.
  intros Hn. unfold re_render_content_for_management_command, bind.
  rewrite Hn. reflexivity.
Qed.

(** X18: on a message whose rendered content is stale,
    re_render_content_for_management_command renders the message's own
    content once and saves once; the record it saves is the message with
    the render's result as rendered_content and the current bugdown
    version, every other field as it was; it returns when the save
    succeeds, with the store the save returned, and raises the save's
    exception with the store unchanged when the save fails. *)
Theorem re_render_saves_the_render (message : Message.t) (w : world Store) :
  need_to_render_content env (Message.rendered_content message)
    (Message.rendered_content_version message) (bugdown_version env) = true ->
  let rc := render_markdown_default message (Message.content message) in
  let saved :=
    Message.mk (Message.id message) (Message.content message)
      (Message.subject message) (Message.pub_date message)
      (Message.last_edit_time message) (Message.edit_history message)
      rc (Some (bugdown_version env))
      (Message.sender message) (Message.recipient message)
      (Message.sending_client message) in
  let log :=
    (calls w ++ [CallRender (Message.id message) (Message.content message) "";
                 CallSave (Message.id message) rc (Some (bugdown_version env))])%list in
  re_render_content_for_management_command env render_markdown_default message w
  = match save_rendered_content env (store w) saved with
    | Ok s' => (Ok tt, mk_world s' log)
    | Raise e => (Raise e, mk_world (store w) log)
    end.
Proof.
  intros Hn rc saved log.
  unfold re_render_content_for_management_command, bind,
    call_render_markdown_default, call_save_rendered_content, ret.
  rewrite Hn. cbn [logged store calls Message.id Message.set_rendered
                   Message.rendered_content Message.rendered_content_version].
  fold rc. change (Message.set_rendered message rc (bugdown_version env))
    with saved.
  subst log.
  destruct (save_rendered_content env (store w) saved);
    unfold logged; cbn [store calls]; rewrite <- ?app_assoc; reflexivity.
Qed.

End Management.

(** The rendered message is refused. *)
Lemma re_render_refuses_example :
  re_render_content_for_management_command Fixture.env render_default
    rendered_message (Fixture.world_with rendered_message)
  = (Raise AssertionError, Fixture.world_with rendered_message).
Proof.
  exact (re_render_refuses_current Fixture.env render_default rendered_message
           (Fixture.world_with rendered_message) eq_refl).
Defined.

(** bob's never-rendered stream message, held by the store, is rendered
    and saved; the stored record then carries the body and the version. *)
Lemma re_render_example :
  exists w',
    re_render_content_for_management_command Fixture.env render_default
      (Fixture.message 2 10 "hi") (Fixture.world_with (Fixture.message 2 10 "hi"))
    = (Ok tt, w') /\
    Message.rendered_content <$> (store w' !! 7) = Some (Some "<p>hi</p>") /\
    Message.rendered_content_version <$> (store w' !! 7) = Some (Some 2).
Proof.
  pose proof (re_render_saves_the_render Fixture.env render_default
                (Fixture.message 2 10 "hi")
                (Fixture.world_with (Fixture.message 2 10 "hi")) eq_refl) as H.
  cbv zeta in H.
  match type of H with
  | context [match ?s with Ok _ => _ | Raise _ => _ end] =>
      eassert (Hs : s = Ok _) by reflexivity; rewrite Hs in H
  end.
  eexists. split; [exact H|]. split; reflexivity.
Defined.

(** ** The self-message and the message argument *)

Section MessageArgument.
Context {Store : Type}.
Variable env : collaborators Store.

(** X19: for a PERSONAL or HUDDLE recipient that resolves to one
    participant with the sender's own email (a message to oneself), the
    dict lists that one participant as resolved: the sender's descriptor
    is neither added nor put in its place. *)
Theorem self_message_is_kept (apply_markdown : bool)
    (message : option Message.t) (f : fields) (first : participant)
    (w w' : world Store) (d : gmap string value) :
  recipient_type f <> STREAM env ->
  recipient_type f = HUDDLE env \/ recipient_type f = PERSONAL env ->
  resolved_recipient env f = Participants [first] ->
  sender_email f = p_email first ->
  build_message_dict env apply_markdown message f w = (Ok d, w') ->
  d !! "type" = Some (VStr "private") /\
  d !! "display_recipient" = Some (VList [participant_value first]).
Proof.
  intros Hs Hp Hr Heq Hb.
  apply build_fixed_lookup in Hb as (dt & dr & Hd & Hk).
  rewrite Hr, (resolve_display_self env f first Hs Hp Heq) in Hd.
  apply Ok_inj in Hd. injection Hd as <- <-.
  split; rewrite Hk by discriminate; reflexivity.
Qed.

(** X20: the message argument matters to the render only: with
    apply_markdown false, or with rendered content that the render gate
    reports current, the builder's outcome is the same for every message
    object it is given and for none. *)
Theorem message_argument_is_for_render (apply_markdown : bool)
    (message1 message2 : option Message.t) (f : fields) (w : world Store) :
  apply_markdown = false \/
  need_to_render_content env (rendered_content f) (rendered_content_version f)
    (bugdown_version env) = false ->
  build_message_dict env apply_markdown message1 f w
  = build_message_dict env apply_markdown message2 f w.
Proof.
  intros H. rewrite !build_message_dict_stages.
  destruct (resolve_display env f _) as [[[dt|] dr]|e]; try reflexivity.
  destruct (add_edit_metadata env f _) as [obj|e]; try reflexivity.
  destruct apply_markdown.
  - destruct H as [H | H]; [discriminate H|].
    rewrite !resolve_content_fresh by exact H. reflexivity.
  - rewrite !resolve_content_off. reflexivity.
Qed.

End MessageArgument.

(** alice's note to herself. *)
Lemma self_message_example :
  exists d w',
    build_message_dict Fixture.env false None (Fixture.fields_of self_message)
      Fixture.empty_world = (Ok d, w') /\
    d !! "type" = Some (VStr "private") /\
    d !! "display_recipient" = Some (VList [participant_value Fixture.alice]).
Proof.
  edestruct (self_message_is_kept Fixture.env false None
               (Fixture.fields_of self_message) Fixture.alice
               Fixture.empty_world) as (Ht & Hd);
    [discriminate | right; reflexivity | reflexivity | reflexivity
    | reflexivity |].
  eexists _, _. split; [reflexivity|]. split; [exact Ht | exact Hd].
Defined.

(** The rendered message built with an unrelated message object and
    with none. *)
Lemma message_argument_example :
  build_message_dict Fixture.env true (Some self_message)
    (Fixture.fields_of rendered_message) Fixture.empty_world
  = build_message_dict Fixture.env true None
      (Fixture.fields_of rendered_message) Fixture.empty_world /\
  is_ok (fst (build_message_dict Fixture.env true None
                (Fixture.fields_of rendered_message) Fixture.empty_world))
  = true.
Proof.
  split; [|reflexivity].
  exact (message_argument_is_for_render Fixture.env true (Some self_message)
           None (Fixture.fields_of rendered_message) Fixture.empty_world
           (or_intror eq_refl)).
Defined.
